(** * Task-App: ownership-scoped task CRUD

    A shallow embedding of the task API of the repository
    ([backend/controllers/taskController.js], [backend/models/Task.js]) and of
    the client that talks to it ([src/App.jsx]: [MockBackend], [taskService]
    and the [Dashboard] handlers), followed by the properties that the
    specification states about them.

    Conventions of the embedding.
    - The MongoDB collection behind the [Task] model is a finite map from
      [_id] to document; MongoDB itself keeps [_id] unique.
    - An [ObjectId] is carried as its hexadecimal string in lower case, so
      that [toString] is the identity and
      [task.user.toString() !== req.user.id] is a comparison of strings.
    - The model has two layers.  The module [Task] and the four handlers
      [getTasks], [createTask], [updateTask], [deleteTask] are the code once
      Mongoose has cast the identifiers it is given.  The modules [Mongoose]
      and [Express] put the casts in front: a string that is no ObjectId
      makes the call throw a [CastError], which the handler's [catch]
      answers with 500, and another spelling of an identifier (upper-case
      digits) is the same identifier.
    - An [async] function is a computation over the collection that either
      returns or throws; [try]/[catch] is [try_catch].
    - What the handlers leave to their environment is an explicit argument:
      the identifier that the driver generates for a new document and the
      clock that stamps [createdAt]/[updatedAt].
    - A request body is a flat object with the three paths that
      [taskSchema] declares, [user], [title] and [status], each absent or a
      string; a key that is neither a path of the schema nor an update
      operator is dropped by Mongoose's strict mode.  Bodies that carry
      update operators ([$set], [$unset], ...), the paths that Mongoose adds
      to the schema ([_id], [__v], [createdAt], [updatedAt]) or values that
      are not strings are not modelled, and no statement below is about
      them.
    - Strings are carried in UTF-8; where the code counts or classifies
      characters ([length], [trim]) the model reads them off the bytes.
    - [DEMO_MODE] is a constant of [App.jsx]; the service is modelled for
      both of its values.  The user that a request is authenticated as comes
      from middleware outside these files and is an input, present or not. *)

From stdpp Require Import gmap strings list fin_maps pretty.
From Stdlib Require Import NArith.

Open Scope string_scope.
Open Scope list_scope.

Abbreviation ObjectId := string (only parsing).

(** ** Exceptions and asynchronous computations over a store *)

Inductive Exn : Type :=
| TypeError (m : string)
| ValidationError (m : string)
| MongoServerError (m : string)
| Error (m : string)
| AxiosError (status : nat) (m : string).

(** [error.message] *)
Definition message (e : Exn) : string :=
  match e with
  | TypeError m | ValidationError m | MongoServerError m | Error m
  | AxiosError _ m => m
  end.

Inductive Outcome (A : Type) : Type :=
| Returned (a : A)
| Thrown (e : Exn).
Arguments Returned {A} a.
Arguments Thrown {A} e.

Definition Async (S A : Type) : Type := S -> Outcome A * S.

Definition ret {S A} (a : A) : Async S A := fun s => (Returned a, s).

Definition throw {S A} (e : Exn) : Async S A := fun s => (Thrown e, s).

Definition bind {S A B} (c : Async S A) (k : A -> Async S B) : Async S B :=
  fun s =>
    match c s with
    | (Returned a, s') => k a s'
    | (Thrown e, s') => (Thrown e, s')
    end.

Definition try_catch {S A} (body : Async S A) (handler : Exn -> Async S A)
  : Async S A :=
  fun s =>
    match body s with
    | (Returned a, s') => (Returned a, s')
    | (Thrown e, s') => handler e s'
    end.

Notation "'await' x <- c ;; k" := (bind c (fun x => k))
  (at level 10, x name, c at level 99, k at level 200, only parsing).
Notation "'try' b 'catch' h" := (try_catch b h)
  (at level 10, b at level 200, h at level 9, only parsing).

(** ** models/Task.js *)

(** A flat object with the paths of [taskSchema], each present or not and
    each a string: the argument of [Task.create] and, as [req.body], of
    [findByIdAndUpdate]. *)
Module Fields.
Record t : Type := mk {
  user : option string;
  title : option string;
  status : option string
}.
Definition empty : t := mk None None None.
End Fields.

Module Task.

Record doc : Type := mk {
  _id : ObjectId;
  user : ObjectId;
  title : string;
  status : string;
  createdAt : N;
  updatedAt : N
}.

#[export] Instance doc_eq_dec : EqDecision doc.
Proof. solve_decision. Defined.

(** [enum: ['todo', 'in-progress', 'done']] *)
Definition statusEnum : list string := ["todo"; "in-progress"; "done"].

Definition in_enum (s : string) : bool := bool_decide (s ∈ statusEnum).

(** [required: true] on a String path: present and of positive length. *)
Definition checkRequired (v : option string) : bool :=
  match v with
  | Some s => negb (String.eqb s "")
  | None => false
  end.

(** [required: true] on an ObjectId path: present (a value that is there
    has been cast to an ObjectId). *)
Definition checkRequiredObjectId (v : option ObjectId) : bool :=
  match v with
  | Some _ => true
  | None => false
  end.

(** Document validation, as run by [Task.create] (and by [save]): the
    [default] of [status] is applied first, then [required] on the three
    paths and [enum] on [status]. *)
Definition validate (f : Fields.t) : option Exn :=
  let st := Some (default "todo" (Fields.status f)) in
  if negb (checkRequiredObjectId (Fields.user f)) then
    Some (ValidationError "Task validation failed: user: Path `user` is required.")
  else if negb (checkRequired (Fields.title f)) then
    Some (ValidationError "Task validation failed: title: Path `title` is required.")
  else if negb (checkRequired st) then
    Some (ValidationError "Task validation failed: status: Path `status` is required.")
  else if negb (in_enum (default "todo" (Fields.status f))) then
    Some (ValidationError "Task validation failed: status: not a valid enum value for path `status`.")
  else None.

(** [Task.find({ user })] *)
Definition find (owner : string) : Async (gmap string doc) (list doc) :=
  fun db =>
    (Returned (map_to_list (filter (fun kv => user kv.2 = owner) db)).*2, db).

(** [Task.findById(id)], for an [id] that has been cast to an ObjectId; the
    cast itself is [Mongoose.findById]. *)
Definition findById (id : ObjectId) : Async (gmap string doc) (option doc) :=
  fun db => (Returned (db !! id), db).

(** [Task.create(fields)]: validates, then inserts under the generated
    identifier [oid] with both timestamps set to [now]; MongoDB refuses a
    second document with the same [_id]. *)
Definition create (oid : ObjectId) (now : N) (f : Fields.t)
  : Async (gmap string doc) doc :=
  fun db =>
    match validate f with
    | Some e => (Thrown e, db)
    | None =>
        match db !! oid with
        | Some _ => (Thrown (MongoServerError "E11000 duplicate key error"), db)
        | None =>
            let t := mk oid
                        (default "" (Fields.user f))
                        (default "" (Fields.title f))
                        (default "todo" (Fields.status f))
                        now now in
            (Returned t, <[oid := t]> db)
        end
    end.

(** The [$set] that Mongoose builds from a flat update object once its
    values are cast: every schema path that the object carries, and
    [updatedAt]. *)
Definition applyUpdate (upd : Fields.t) (now : N) (t : doc) : doc :=
  mk (_id t)
     (default (user t) (Fields.user upd))
     (default (title t) (Fields.title upd))
     (default (status t) (Fields.status upd))
     (createdAt t)
     now.

(** [Task.findByIdAndUpdate(id, update, { new: true })], for an [id] and an
    [update] that have been cast; the casts are [Mongoose.findByIdAndUpdate].
    The options carry no [runValidators], and update validators are off by
    default: the update is written without [validate]. *)
Definition findByIdAndUpdate (id : ObjectId) (upd : Fields.t) (now : N)
  : Async (gmap string doc) (option doc) :=
  fun db =>
    match db !! id with
    | None => (Returned None, db)
    | Some t =>
        let t' := applyUpdate upd now t in
        (Returned (Some t'), <[id := t']> db)
    end.

(** [task.deleteOne()] *)
Definition deleteOne (t : doc) : Async (gmap string doc) unit :=
  fun db => (Returned tt, delete (_id t) db).

End Task.

(** ** controllers/taskController.js *)

Module User.
Record t : Type := mk { id : string }.
End User.

Module Request.
Record t : Type := mk {
  user : option User.t;
  body : Fields.t;
  params_id : string
}.
End Request.

Inductive Json : Type :=
| JTasks (tasks : list Task.doc)
| JTask (task : option Task.doc)
| JMessage (m : string)
| JId (id : string).

(** [res.status(code).json(payload)] *)
Record Response : Type := mkResponse { code : nat; json : Json }.

(** [req.user.id]: a property read on [undefined] throws. *)
Definition req_user_id {S} (req : Request.t) : Async S string :=
  match Request.user req with
  | Some u => ret (User.id u)
  | None => throw (TypeError "Cannot read properties of undefined (reading 'id')")
  end.

(** [!req.body.title] *)
Definition no_title (req : Request.t) : bool :=
  match Fields.title (Request.body req) with
  | None => true
  | Some s => String.eqb s ""
  end.

Definition internal_error {S} (error : Exn) : Async S Response :=
  ret (mkResponse 500 (JMessage (message error))).

(** The four handlers on a request whose identifiers ([req.params.id],
    [req.user.id], a [user] of the body) are ObjectIds as [toString] prints
    them, so that every cast of Mongoose is the identity.  The handlers on
    the strings of any request are in [Express] below. *)
Definition getTasks (req : Request.t) : Async (gmap string Task.doc) Response :=
  try (await uid <- req_user_id req ;;
       await tasks <- Task.find uid ;;
       ret (mkResponse 200 (JTasks tasks)))
  catch internal_error.

Definition createTask (oid : ObjectId) (now : N) (req : Request.t)
  : Async (gmap string Task.doc) Response :=
  if no_title req then ret (mkResponse 400 (JMessage "Please add a title"))
  else
    try (await uid <- req_user_id req ;;
         await task <- Task.create oid now
                   (Fields.mk (Some uid) (Fields.title (Request.body req)) (Some "todo")) ;;
         ret (mkResponse 200 (JTask (Some task))))
    catch internal_error.

Definition updateTask (now : N) (req : Request.t)
  : Async (gmap string Task.doc) Response :=
  try (await found <- Task.findById (Request.params_id req) ;;
       match found with
       | None => ret (mkResponse 404 (JMessage "Task not found"))
       | Some task =>
           match Request.user req with
           | None => ret (mkResponse 401 (JMessage "User not found"))
           | Some u =>
               if negb (String.eqb (Task.user task) (User.id u)) then
                 ret (mkResponse 401 (JMessage "User not authorized"))
               else
                 await updatedTask <- Task.findByIdAndUpdate (Request.params_id req)
                                  (Request.body req) now ;;
                 ret (mkResponse 200 (JTask updatedTask))
           end
       end)
  catch internal_error.

Definition deleteTask (req : Request.t)
  : Async (gmap string Task.doc) Response :=
  try (await found <- Task.findById (Request.params_id req) ;;
       match found with
       | None => ret (mkResponse 404 (JMessage "Task not found"))
       | Some task =>
           match Request.user req with
           | None => ret (mkResponse 401 (JMessage "User not found"))
           | Some u =>
               if negb (String.eqb (Task.user task) (User.id u)) then
                 ret (mkResponse 401 (JMessage "User not authorized"))
               else
                 await done <- Task.deleteOne task ;;
                 ret (mkResponse 200 (JId (Request.params_id req)))
           end
       end)
  catch internal_error.

(** ** Mongoose's casts, and the handlers behind them *)

Module Mongoose.

Definition is_hex_digit (c : Ascii.ascii) : bool :=
  let n := Ascii.nat_of_ascii c in
  (Nat.leb 48 n && Nat.leb n 57)
  || (Nat.leb 97 n && Nat.leb n 102)
  || (Nat.leb 65 n && Nat.leb n 70).

(** ['A'] to ['F'] become ['a'] to ['f']. *)
Definition lower_hex (c : Ascii.ascii) : Ascii.ascii :=
  let n := Ascii.nat_of_ascii c in
  if Nat.leb 65 n && Nat.leb n 70 then Ascii.ascii_of_nat (n + 32) else c.

(** The cast of a string to an ObjectId, as the driver's [ObjectId]
    constructor does it (bson 6, which Mongoose 8 builds on): 24 hexadecimal
    digits, in either case, are the identifier that [toString] prints in
    lower case; any other string is refused. *)
Definition castObjectId (s : string) : option ObjectId :=
  let l := String.list_ascii_of_string s in
  if Nat.eqb (length l) 24 && forallb is_hex_digit l
  then Some (String.string_of_list_ascii (lower_hex <$> l))
  else None.

(** The error of a failed cast; its message without the quotation marks and
    the name of the model. *)
Definition CastError (value path : string) : Exn :=
  Error ("Cast to ObjectId failed for value " +:+ value +:+ " at path " +:+ path).

(** [Task.find({ user })] *)
Definition find (owner : string) : Async (gmap string Task.doc) (list Task.doc) :=
  match castObjectId owner with
  | Some oid => Task.find oid
  | None => throw (CastError owner "user")
  end.

(** [Task.findById(id)] *)
Definition findById (id : string) : Async (gmap string Task.doc) (option Task.doc) :=
  match castObjectId id with
  | Some oid => Task.findById oid
  | None => throw (CastError id "_id")
  end.

(** The cast of a document or of an update to the schema: [user] is the one
    path that is no string. *)
Definition castFields (f : Fields.t) : option Fields.t :=
  match Fields.user f with
  | None => Some f
  | Some x =>
      match castObjectId x with
      | Some oid => Some (Fields.mk (Some oid) (Fields.title f) (Fields.status f))
      | None => None
      end
  end.

(** [Task.create(fields)]: a failed cast is a validation error. *)
Definition create (oid : ObjectId) (now : N) (f : Fields.t)
  : Async (gmap string Task.doc) Task.doc :=
  match castFields f with
  | Some f' => Task.create oid now f'
  | None =>
      throw (ValidationError "Task validation failed: user: Cast to ObjectId failed")
  end.

(** [Task.findByIdAndUpdate(id, update, { new: true })] *)
Definition findByIdAndUpdate (id : string) (upd : Fields.t) (now : N)
  : Async (gmap string Task.doc) (option Task.doc) :=
  match castObjectId id, castFields upd with
  | Some oid, Some upd' => Task.findByIdAndUpdate oid upd' now
  | None, _ => throw (CastError id "_id")
  | _, None => throw (CastError (default "" (Fields.user upd)) "user")
  end.

End Mongoose.

(** The four handlers as Express calls them, on the strings of the request. *)
Module Express.

Definition getTasks (req : Request.t) : Async (gmap string Task.doc) Response :=
  try (await uid <- req_user_id req ;;
       await tasks <- Mongoose.find uid ;;
       ret (mkResponse 200 (JTasks tasks)))
  catch internal_error.

Definition createTask (oid : ObjectId) (now : N) (req : Request.t)
  : Async (gmap string Task.doc) Response :=
  if no_title req then ret (mkResponse 400 (JMessage "Please add a title"))
  else
    try (await uid <- req_user_id req ;;
         await task <- Mongoose.create oid now
                   (Fields.mk (Some uid) (Fields.title (Request.body req)) (Some "todo")) ;;
         ret (mkResponse 200 (JTask (Some task))))
    catch internal_error.

Definition updateTask (now : N) (req : Request.t)
  : Async (gmap string Task.doc) Response :=
  try (await found <- Mongoose.findById (Request.params_id req) ;;
       match found with
       | None => ret (mkResponse 404 (JMessage "Task not found"))
       | Some task =>
           match Request.user req with
           | None => ret (mkResponse 401 (JMessage "User not found"))
           | Some u =>
               if negb (String.eqb (Task.user task) (User.id u)) then
                 ret (mkResponse 401 (JMessage "User not authorized"))
               else
                 await updatedTask <- Mongoose.findByIdAndUpdate (Request.params_id req)
                                  (Request.body req) now ;;
                 ret (mkResponse 200 (JTask updatedTask))
           end
       end)
  catch internal_error.

Definition deleteTask (req : Request.t)
  : Async (gmap string Task.doc) Response :=
  try (await found <- Mongoose.findById (Request.params_id req) ;;
       match found with
       | None => ret (mkResponse 404 (JMessage "Task not found"))
       | Some task =>
           match Request.user req with
           | None => ret (mkResponse 401 (JMessage "User not found"))
           | Some u =>
               if negb (String.eqb (Task.user task) (User.id u)) then
                 ret (mkResponse 401 (JMessage "User not authorized"))
               else
                 await done <- Task.deleteOne task ;;
                 ret (mkResponse 200 (JId (Request.params_id req)))
           end
       end)
  catch internal_error.

End Express.

(** An identifier as [toString] prints it. *)
Definition canonical (id : string) : Prop := Mongoose.castObjectId id = Some id.

(** ** src/App.jsx: the blank-title test of the form *)

(** White space as [String.prototype.trim] sees it, over the ASCII range:
    tab, line feed, vertical tab, form feed, carriage return and space. *)
Definition is_white_space (c : Ascii.ascii) : bool :=
  let n := Ascii.nat_of_ascii c in
  (Nat.leb 9 n && Nat.leb n 13) || Nat.eqb n 32.

(** The white space of [trim] beyond ASCII, by its bytes in UTF-8: U+00A0;
    U+1680, U+2000 to U+200A, U+2028, U+2029, U+202F, U+205F, U+3000 and
    U+FEFF. *)
Definition white_space_2 (a b : nat) : bool :=
  Nat.eqb a 194 && Nat.eqb b 160.

Definition white_space_3 (a b c : nat) : bool :=
  (Nat.eqb a 225 && Nat.eqb b 154 && Nat.eqb c 128)
  || (Nat.eqb a 226 && Nat.eqb b 128
      && ((Nat.leb 128 c && Nat.leb c 138)
          || Nat.eqb c 168 || Nat.eqb c 169 || Nat.eqb c 175))
  || (Nat.eqb a 226 && Nat.eqb b 129 && Nat.eqb c 159)
  || (Nat.eqb a 227 && Nat.eqb b 128 && Nat.eqb c 128)
  || (Nat.eqb a 239 && Nat.eqb b 187 && Nat.eqb c 191).

Fixpoint blank_bytes (l : list Ascii.ascii) : bool :=
  match l with
  | [] => true
  | a :: l1 =>
      if is_white_space a then blank_bytes l1
      else
        match l1 with
        | [] => false
        | b :: l2 =>
            if white_space_2 (Ascii.nat_of_ascii a) (Ascii.nat_of_ascii b)
            then blank_bytes l2
            else
              match l2 with
              | [] => false
              | c :: l3 =>
                  if white_space_3 (Ascii.nat_of_ascii a) (Ascii.nat_of_ascii b)
                       (Ascii.nat_of_ascii c)
                  then blank_bytes l3
                  else false
              end
        end
  end.

(** [!title.trim()]: the title is empty or made of white space only. *)
Definition is_blank (s : string) : bool :=
  blank_bytes (String.list_ascii_of_string s).

(** ** src/App.jsx: MockBackend *)

Module MockBackend.

(** A task as the mock keeps it in [localStorage]. *)
Record task : Type := mk {
  _id : string;
  title : string;
  status : string
}.

#[export] Instance task_eq_dec : EqDecision task.
Proof. solve_decision. Defined.

(** [{ success: true }] *)
Inductive ack : Type := success.

(** [localStorage.getItem('mock_tasks')]: absent, or the array last written. *)
Definition storage : Type := option (list task).

(** [JSON.parse(localStorage.getItem('mock_tasks') || '[]')] *)
Definition read (ls : storage) : list task := default [] ls.

Definition seed : list task :=
  [ mk "1" "Start learning Full Stack Development" "in-progress";
    mk "2" "Build the Frontend" "done";
    mk "3" "Setup MongoDB Database" "todo" ].

Definition fetchTasks : Async storage (list task) :=
  fun ls =>
    let tasks := read ls in
    if Nat.eqb (length tasks) 0 then (Returned seed, Some seed)
    else (Returned tasks, ls).

(** [createTask(task)] with [task = { title }]; the identifier is
    [Date.now().toString()]. *)
Definition createTask (now : N) (task_title : string) : Async storage task :=
  fun ls =>
    let tasks := read ls in
    let newTask := mk (pretty now) task_title "todo" in
    (Returned newTask, Some (tasks ++ [newTask])).

(** [{ ...task, ...updates }], for an [updates] object that carries a title,
    a status, both or neither (the service passes [{ status }]). *)
Definition spread (t : task) (updates : Fields.t) : task :=
  mk (_id t)
     (default (title t) (Fields.title updates))
     (default (status t) (Fields.status updates)).

Definition updateTask (id : string) (updates : Fields.t) : Async storage task :=
  fun ls =>
    let tasks := read ls in
    match list_find (fun t => _id t = id) tasks with
    | Some (index, t) =>
        let t' := spread t updates in
        (Returned t', Some (<[index := t']> tasks))
    | None => (Thrown (Error "Task not found"), ls)
    end.

Definition deleteTask (id : string) : Async storage ack :=
  fun ls =>
    let tasks := read ls in
    let filtered := filter (fun t => _id t <> id) tasks in
    (Returned success, Some filtered).

End MockBackend.

(** ** src/App.jsx: taskService *)

(** What the service works on: the browser's [localStorage] entry and, at
    the other end of the API, the collection of the server. *)
Record World : Type := mkWorld {
  mock_tasks : MockBackend.storage;
  collection : gmap string Task.doc
}.

(** What a call of the service resolves to: [res.data] of the server, or
    what the mock returns. *)
Inductive Data : Type :=
| Remote (data : Json)
| MockTasks (tasks : list MockBackend.task)
| MockTask (task : MockBackend.task)
| MockAck (a : MockBackend.ack).

Definition on_mock {A} (c : Async MockBackend.storage A) : Async World A :=
  fun w =>
    let '(r, ls) := c (mock_tasks w) in (r, mkWorld ls (collection w)).

(** A request through [axios] to a handler of the server: a 2xx answer
    resolves to its payload, any other status rejects. *)
Definition api (handler : Async (gmap string Task.doc) Response) : Async World Json :=
  fun w =>
    let '(r, db) := handler (collection w) in
    let w' := mkWorld (mock_tasks w) db in
    match r with
    | Returned res =>
        if Nat.leb 200 (code res) && Nat.ltb (code res) 300
        then (Returned (json res), w')
        else (Thrown (AxiosError (code res)
                        ("Request failed with status code " +:+ pretty (code res))), w')
    | Thrown e => (Thrown e, w')
    end.

(** The environment of one call: [DEMO_MODE], the user that the token of the
    request authenticates (if any), the clock, and the identifier that the
    database driver would generate. *)
Record Env : Type := mkEnv {
  DEMO_MODE : bool;
  session : option User.t;
  clock : N;
  generated : ObjectId
}.

(** The identifier of [update] and [delete] travels in the path of the
    URL; the service is modelled for identifiers that Express hands to the
    handler as they were sent (no [/], [?], [#] or [%] in them). *)
Module taskService.

Definition getAll (env : Env) : Async World Data :=
  if DEMO_MODE env then
    await tasks <- on_mock MockBackend.fetchTasks ;; ret (MockTasks tasks)
  else
    await data <- api (Express.getTasks (Request.mk (session env) Fields.empty "")) ;;
    ret (Remote data).

Definition create (env : Env) (title : string) : Async World Data :=
  if DEMO_MODE env then
    await task <- on_mock (MockBackend.createTask (clock env) title) ;;
    ret (MockTask task)
  else
    await data <- api (Express.createTask (generated env) (clock env)
                         (Request.mk (session env) (Fields.mk None (Some title) None) "")) ;;
    ret (Remote data).

Definition update (env : Env) (id status : string) : Async World Data :=
  if DEMO_MODE env then
    await task <- on_mock (MockBackend.updateTask id (Fields.mk None None (Some status))) ;;
    ret (MockTask task)
  else
    await data <- api (Express.updateTask (clock env)
                         (Request.mk (session env) (Fields.mk None None (Some status)) id)) ;;
    ret (Remote data).

Definition delete (env : Env) (id : string) : Async World Data :=
  if DEMO_MODE env then
    await a <- on_mock (MockBackend.deleteTask id) ;; ret (MockAck a)
  else
    await data <- api (Express.deleteTask (Request.mk (session env) Fields.empty id)) ;;
    ret (Remote data).

End taskService.

(** ** src/App.jsx: Dashboard *)

(** The component is written against the four calls of the service; it keeps
    the objects that the service hands it and reads their [_id] and [status]
    only.  So the handlers are stated over any service and any kind of task
    object that has the two. *)
Module Service.
Record t (W Item Ack : Type) : Type := mk {
  getAll : Async W (list Item);
  create : string -> Async W Item;
  update : string -> string -> Async W Item;
  delete : string -> Async W Ack
}.
Arguments mk {W Item Ack}.
Arguments getAll {W Item Ack}.
Arguments create {W Item Ack}.
Arguments update {W Item Ack}.
Arguments delete {W Item Ack}.
End Service.

(** The state of the component ([useState]) and the browser console. *)
Record Dashboard (Item : Type) : Type := mkDashboard {
  tasks : list Item;
  loading : bool;
  newTaskTitle : string;
  filter_ : string;
  console : list Exn
}.
Arguments mkDashboard {Item}.
Arguments tasks {Item}.
Arguments loading {Item}.
Arguments newTaskTitle {Item}.
Arguments filter_ {Item}.
Arguments console {Item}.

(** What the component puts on the screen. *)
Record View (Item : Type) : Type := mkView {
  stats : nat * nat * nat * nat;
  spinner : bool;
  filteredTasks : list Item;
  input : string;
  add_disabled : bool;
  selected : string
}.
Arguments mkView {Item}.

Section DashboardHandlers.
Context {W Item Ack : Type}.
Variable item_id : Item -> string.
Variable item_status : Item -> string.
Variable taskService : Service.t W Item Ack.

Definition setTasks (l : list Item) (d : Dashboard Item) : Dashboard Item :=
  mkDashboard l (loading d) (newTaskTitle d) (filter_ d) (console d).

Definition setLoading (b : bool) (d : Dashboard Item) : Dashboard Item :=
  mkDashboard (tasks d) b (newTaskTitle d) (filter_ d) (console d).

Definition setNewTaskTitle (s : string) (d : Dashboard Item) : Dashboard Item :=
  mkDashboard (tasks d) (loading d) s (filter_ d) (console d).

(** [console.error(err)] *)
Definition console_error (err : Exn) (d : Dashboard Item) : Dashboard Item :=
  mkDashboard (tasks d) (loading d) (newTaskTitle d) (filter_ d) (console d ++ [err]).

Definition fetchTasks (d : Dashboard Item) (w : W) : Dashboard Item * W :=
  match Service.getAll taskService w with
  | (Returned data, w') => (setLoading false (setTasks data d), w')
  | (Thrown err, w') => (setLoading false (console_error err d), w')
  end.

Definition handleAddTask (d : Dashboard Item) (w : W) : Dashboard Item * W :=
  if is_blank (newTaskTitle d) then (d, w)
  else
    match Service.create taskService (newTaskTitle d) w with
    | (Returned newTask, w') =>
        (setNewTaskTitle "" (setTasks (tasks d ++ [newTask]) d), w')
    | (Thrown err, w') => (console_error err d, w')
    end.

Definition handleUpdateStatus (id status : string) (d : Dashboard Item) (w : W)
  : Dashboard Item * W :=
  match Service.update taskService id status w with
  | (Returned updated, w') =>
      (setTasks ((fun t => if decide (item_id t = id) then updated else t) <$> tasks d) d, w')
  | (Thrown err, w') => (console_error err d, w')
  end.

(** [confirmed] is the answer to [window.confirm]. *)
Definition handleDelete (confirmed : bool) (id : string) (d : Dashboard Item) (w : W)
  : Dashboard Item * W :=
  if negb confirmed then (d, w)
  else
    match Service.delete taskService id w with
    | (Returned _, w') =>
        (setTasks (filter (fun t => item_id t <> id) (tasks d)) d, w')
    | (Thrown err, w') => (console_error err d, w')
    end.

Definition count_status (s : string) (d : Dashboard Item) : nat :=
  length (filter (fun t => item_status t = s) (tasks d)).

(** The returned JSX, reduced to what depends on the state: the four
    counters, the spinner, the tasks that pass the filter, the input box with
    its button, and the selected filter.  The console is not part of it. *)
Definition render (d : Dashboard Item) : View Item :=
  mkView (length (tasks d), count_status "todo" d,
          count_status "in-progress" d, count_status "done" d)
         (loading d)
         (filter (fun t => filter_ d = "all" \/ item_status t = filter_ d) (tasks d))
         (newTaskTitle d)
         (is_blank (newTaskTitle d))
         (filter_ d).

End DashboardHandlers.

(** The service in demo mode, as the [Dashboard] sees it. *)
Definition demo_service (now : N)
  : Service.t MockBackend.storage MockBackend.task MockBackend.ack :=
  Service.mk MockBackend.fetchTasks
            (MockBackend.createTask now)
            (fun id status => MockBackend.updateTask id (Fields.mk None None (Some status)))
            MockBackend.deleteTask.

(** ** The spec's names for the responses *)

Definition NotFound : Response := mkResponse 404 (JMessage "Task not found").
Definition Unauthorized : Response := mkResponse 401 (JMessage "User not authorized").
Definition Unauthenticated : Response := mkResponse 401 (JMessage "User not found").
Definition TitleRequired : Response := mkResponse 400 (JMessage "Please add a title").
Definition InternalError (e : Exn) : Response := mkResponse 500 (JMessage (message e)).

(** [n] successive [DELETE /api/tasks/:id] requests; the responses in order. *)
Fixpoint DELETE_times (n : nat) (req : Request.t) (db : gmap string Task.doc)
  : list (Outcome Response) * gmap string Task.doc :=
  match n with
  | O => ([], db)
  | S n' =>
      let '(r, db') := Express.deleteTask req db in
      let '(rs, db'') := DELETE_times n' req db' in
      (r :: rs, db'')
  end.

(** ** The API as a state machine *)

(** One request, by the route that the handler is mounted on. *)
Inductive Call : Type :=
| GET_tasks (req : Request.t)
| POST_tasks (oid : ObjectId) (now : N) (req : Request.t)
| PUT_task (now : N) (req : Request.t)
| DELETE_task (req : Request.t).

Definition run (c : Call) : Async (gmap string Task.doc) Response :=
  match c with
  | GET_tasks req => getTasks req
  | POST_tasks oid now req => createTask oid now req
  | PUT_task now req => updateTask now req
  | DELETE_task req => deleteTask req
  end.

(** The collections that requests can lead to, from the empty one. *)
Inductive reachable : gmap string Task.doc -> Prop :=
| reachable_empty : reachable ∅
| reachable_step (db : gmap string Task.doc) (c : Call) :
    reachable db -> reachable (run c db).2.

(** A collection stores each document under its own [_id]. *)
Definition well_keyed (db : gmap string Task.doc) : Prop :=
  forall k t, db !! k = Some t -> Task._id t = k.

(** ** Example data *)

Definition alice : User.t := User.mk "64b7f0a1c2d3e4f5a6b7c8d1".
Definition bob : User.t := User.mk "64b7f0a1c2d3e4f5a6b7c8d2".

Definition write_spec : Task.doc :=
  Task.mk "64b7f0a1c2d3e4f5a6b7c901" (User.id alice) "Write spec" "todo" 10 10.

Definition bobs_task : Task.doc :=
  Task.mk "64b7f0a1c2d3e4f5a6b7c902" (User.id bob) "Pay rent" "in-progress" 11 12.

Definition one_task : gmap string Task.doc :=
  {[ Task._id write_spec := write_spec ]}.

Definition two_tasks : gmap string Task.doc :=
  <[ Task._id bobs_task := bobs_task ]> one_task.

Definition archived : Task.doc :=
  Task.mk (Task._id write_spec) (User.id alice) "Write spec" "archived" 10 20.

Definition handed_over : Task.doc :=
  Task.mk (Task._id write_spec) (User.id bob) "Write spec" "todo" 10 20.

Definition blank_task : Task.doc :=
  Task.mk "64b7f0a1c2d3e4f5a6b7c903" (User.id alice) "   " "todo" 20 20.

Definition demo_dashboard : Dashboard MockBackend.task :=
  mkDashboard MockBackend.seed false "" "all" [].

Definition typing_dashboard : Dashboard MockBackend.task :=
  mkDashboard MockBackend.seed true "Buy milk" "all" [].

(** The service when the server cannot be reached: [axios] rejects every
    call. *)
Definition offline_service : Service.t unit MockBackend.task MockBackend.ack :=
  Service.mk (throw (AxiosError 0 "Network Error"))
             (fun _ => throw (AxiosError 0 "Network Error"))
             (fun _ _ => throw (AxiosError 0 "Network Error"))
             (fun _ => throw (AxiosError 0 "Network Error")).

(** ** The claims of the specification that need a name *)

(** The claim as the specification has it: whatever the owner sends, the
    stored owner of the task stays what it was. *)
Definition owner_never_reassigned : Prop :=
  forall (db db' : gmap string Task.doc) (u : User.t) (t : Task.doc)
         (body : Fields.t) (now : N) (r : Outcome Response),
    db !! Task._id t = Some t ->
    Task.user t = User.id u ->
    Express.updateTask now (Request.mk (Some u) body (Task._id t)) db = (r, db') ->
    exists t', db' !! Task._id t = Some t' /\ Task.user t' = Task.user t.

(** The claim as the specification has it: an update or a delete of an
    identifier under which nothing is stored is answered [NotFound],
    whatever the identifier. *)
Definition not_found_when_absent : Prop :=
  forall (db : gmap string Task.doc) (req : Request.t) (now : N),
    db !! Request.params_id req = None ->
    Express.updateTask now req db = (Returned NotFound, db) /\
    Express.deleteTask req db = (Returned NotFound, db).

(** A failure is surfaced to the user when the screen after it differs from
    the screen before it. *)
Definition surfaced {Item : Type} (item_status : Item -> string)
    (before after : Dashboard Item) : Prop :=
  render item_status after <> render item_status before.

(** The claim as the specification has it, for a failed status update: the
    user is shown something and the local tasks are what they were. *)
Definition failed_update_is_surfaced : Prop :=
  forall (W Item Ack : Type) (item_id item_status : Item -> string)
         (service : Service.t W Item Ack) (id status : string)
         (d : Dashboard Item) (w w' : W) (err : Exn),
    Service.update service id status w = (Thrown err, w') ->
    let d' := (handleUpdateStatus item_id service id status d w).1 in
    surfaced item_status d d' /\ tasks d' = tasks d.

(** ** The mock against the server *)

(** The part of a stored document that the mock keeps. *)
Definition view (t : Task.doc) : MockBackend.task :=
  MockBackend.mk (Task._id t) (Task.title t) (Task.status t).

(** The mock's array holds, once each, the documents of user [u], reduced to
    [_id], [title] and [status]. *)
Definition corresponds (u : User.t) (l : list MockBackend.task)
    (db : gmap string Task.doc) : Prop :=
  well_keyed db /\
  NoDup (MockBackend._id <$> l) /\
  forall x, x ∈ l <->
    exists t, db !! MockBackend._id x = Some t /\ Task.user t = User.id u /\ view t = x.

(** The two sides name their tasks differently: the mock by '1', '2', '3'
    or the digits of the clock, the server by ObjectId.  [rename names] reads
    an entry of the mock's array under the server's name for it. *)
Definition rename (names : string -> string) (x : MockBackend.task) : MockBackend.task :=
  MockBackend.mk (names (MockBackend._id x)) (MockBackend.title x) (MockBackend.status x).

Definition rename_outcome (names : string -> string) (o : Outcome Data) : Outcome Data :=
  match o with
  | Returned (MockTasks l) => Returned (MockTasks (rename names <$> l))
  | Returned (MockTask x) => Returned (MockTask (rename names x))
  | _ => o
  end.

(** [names], and [k] for [m]. *)
Definition extend (names : string -> string) (m k : string) : string -> string :=
  fun x => if String.eqb x m then k else names x.

(** The two stores are in step for the signed-in user [u]: read under the
    server's names, the mock's array holds the documents of [u]; the
    identifiers on the server's side are ObjectIds as [toString] prints
    them. *)
Definition in_step (names : string -> string) (u : User.t) (w : World) : Prop :=
  canonical (User.id u) /\
  (forall k t, collection w !! k = Some t -> canonical k) /\
  corresponds u (rename names <$> MockBackend.read (mock_tasks w)) (collection w).

(** The two stores after a call, the mock's from the run in demo mode and
    the server's from the run against the server. *)
Definition still_in_step (names : string -> string) (u : User.t)
    (after_demo after_live : World) : Prop :=
  in_step names u (mkWorld (mock_tasks after_demo) (collection after_live)).

(** When a call in demo mode and the same call against the server come to the
    same thing for the caller: the same task or tasks up to the fields the
    mock keeps and the order of a list, an acknowledgement of either shape,
    or a failure on both sides. *)
Inductive same_result : Outcome Data -> Outcome Data -> Prop :=
| same_task (t : Task.doc) :
    same_result (Returned (MockTask (view t))) (Returned (Remote (JTask (Some t))))
| same_tasks (l : list MockBackend.task) (docs : list Task.doc) :
    l ≡ₚ view <$> docs ->
    same_result (Returned (MockTasks l)) (Returned (Remote (JTasks docs)))
| same_ack (a : MockBackend.ack) (id : string) :
    same_result (Returned (MockAck a)) (Returned (Remote (JId id)))
| same_failure (e e' : Exn) :
    same_result (Thrown e) (Thrown e').

Definition demo (env : Env) : Env :=
  mkEnv true (session env) (clock env) (generated env).

Definition live (env : Env) : Env :=
  mkEnv false (session env) (clock env) (generated env).

(** The claim as the specification has it: from stores that are in step,
    each of the four calls comes to the same thing in demo mode and against
    the server, a task being called by its name on either side. *)
Definition mock_matches_server : Prop :=
  forall (env : Env) (w : World) (u : User.t) (names : string -> string)
         (title m status : string),
    session env = Some u ->
    in_step names u w ->
    same_result (rename_outcome names (taskService.getAll (demo env) w).1)
                (taskService.getAll (live env) w).1 /\
    same_result (rename_outcome (extend names (pretty (clock env)) (generated env))
                   (taskService.create (demo env) title w).1)
                (taskService.create (live env) title w).1 /\
    same_result (rename_outcome names (taskService.update (demo env) m status w).1)
                (taskService.update (live env) (names m) status w).1 /\
    same_result (rename_outcome names (taskService.delete (demo env) m w).1)
                (taskService.delete (live env) (names m) w).1.

Definition empty_world : World := mkWorld None ∅.

Definition alice_env : Env :=
  mkEnv false (Some alice) 1700000000000 "64b7f0a1c2d3e4f5a6b7c904".

(** One millisecond later; the driver has moved on as well. *)
Definition alice_env_later : Env :=
  mkEnv false (Some alice) 1700000000001 "64b7f0a1c2d3e4f5a6b7c905".

(** The same millisecond; the driver has moved on. *)
Definition alice_env_again : Env :=
  mkEnv false (Some alice) 1700000000000 "64b7f0a1c2d3e4f5a6b7c905".

(** Bob, signed in on the same browser. *)
Definition bob_env : Env :=
  mkEnv false (Some bob) 1700000000001 "64b7f0a1c2d3e4f5a6b7c905".

(** What a call does on either side: the mock's entry from the run in demo
    mode, the collection from the run against the server. *)
Definition both_sides (call : Env -> Async World Data) (env : Env) (w : World) : World :=
  mkWorld (mock_tasks (call (demo env) w).2) (collection (call (live env) w).2).

(** The world after "Buy milk" has been created on both sides of an empty
    world. *)
Definition milk_world : World :=
  both_sides (fun env => taskService.create env "Buy milk") alice_env empty_world.

(** The names in [milk_world]. *)
Definition milk_names : string -> string :=
  extend (fun m => m) "1700000000000" "64b7f0a1c2d3e4f5a6b7c904".

(** [milk_world] after "Feed cat" has been created on both sides within the
    same millisecond. *)
Definition cat_world : World :=
  both_sides (fun env => taskService.create env "Feed cat") alice_env_again milk_world.

(** ** src/App.jsx: authentication on the client *)

(** [s.length]: the number of UTF-16 code units of a string, read off its
    UTF-8 bytes.  A byte that continues a character counts nothing, the first
    byte of a character of four bytes (a surrogate pair) counts two, any
    other first byte one. *)
Definition utf16_units (c : Ascii.ascii) : nat :=
  let n := Ascii.nat_of_ascii c in
  if Nat.ltb n 128 then 1
  else if Nat.ltb n 192 then 0
  else if Nat.ltb n 240 then 1
  else 2.

Definition js_length (s : string) : nat :=
  list_sum (utf16_units <$> String.list_ascii_of_string s).

(** [MockBackend.login] and [MockBackend.register].  The user object of the
    mock is [{ id: 1, name, email }]. *)
Module MockAuth.

Record account : Type := mkAccount {
  id : N;
  name : string;
  email : string
}.

(** [{ token, user }] *)
Record data (Account : Type) : Type := mkData {
  token : string;
  user : Account
}.
Arguments mkData {Account}.
Arguments token {Account}.
Arguments user {Account}.

Definition login {W} (email password : string) : Async W (data account) :=
  if Nat.ltb (js_length password) 6
  then throw (Error "Password must be at least 6 characters")
  else ret (mkData "mock-jwt-token-123" (mkAccount 1 "Demo User" email)).

Definition register {W} (name email password : string) : Async W (data account) :=
  ret (mkData "mock-jwt-token-123" (mkAccount 1 name email)).

End MockAuth.

(** [AuthProvider]: the entries ['token'] and ['user'] of [localStorage] (the
    user goes through [JSON.stringify] and comes back through [JSON.parse]),
    the state [user] and [loading], and the three things that change them. *)
Module AuthProvider.

Record items (Account : Type) : Type := mkItems {
  token_item : option string;
  user_item : option Account
}.
Arguments mkItems {Account}.
Arguments token_item {Account}.
Arguments user_item {Account}.

Record state (Account : Type) : Type := mkState {
  user : option Account;
  loading : bool
}.
Arguments mkState {Account}.
Arguments user {Account}.
Arguments loading {Account}.

(** [useState(null)], [useState(true)] *)
Definition initial {Account} : state Account := mkState None true.

(** A string is truthy when it is not empty. *)
Definition truthy (s : string) : bool := negb (String.eqb s "").

(** The effect run on mount: [if (token && storedUser) setUser(...)], then
    [setLoading(false)]. *)
Definition mount {Account} (ls : items Account) (st : state Account) : state Account :=
  match token_item ls, user_item ls with
  | Some tk, Some u => if truthy tk then mkState (Some u) false
                       else mkState (user st) false
  | _, _ => mkState (user st) false
  end.

Definition login {Account} (d : MockAuth.data Account)
    (ls : items Account) (st : state Account) : items Account * state Account :=
  (mkItems (Some (MockAuth.token d)) (Some (MockAuth.user d)),
   mkState (Some (MockAuth.user d)) (loading st)).

Definition logout {Account} (ls : items Account) (st : state Account)
  : items Account * state Account :=
  (mkItems None None, mkState None (loading st)).

(** The request interceptor of [api]: the [Authorization] header that a
    request leaves with, if any. *)
Definition authorization {Account} (ls : items Account) : option string :=
  match token_item ls with
  | Some tk => if truthy tk then Some ("Bearer " +:+ tk) else None
  | None => None
  end.

End AuthProvider.

(** The two calls of [taskService] that [AuthForm] uses. *)
Module AuthService.
Record t (W Account : Type) : Type := mk {
  login : string -> string -> Async W (MockAuth.data Account);
  register : string -> string -> string -> Async W (MockAuth.data Account)
}.
Arguments mk {W Account}.
Arguments login {W Account}.
Arguments register {W Account}.
End AuthService.

(** [AuthForm]: its state, and the rest of the client that a submit touches:
    the page of [App] and what [AuthProvider] holds. *)
Module AuthForm.

Record formData : Type := mkFormData {
  name : string;
  email : string;
  password : string
}.

Record client (Account : Type) : Type := mkClient {
  form : formData;
  error : string;
  loading : bool;
  page : string;
  items : AuthProvider.items Account;
  auth : AuthProvider.state Account
}.
Arguments mkClient {Account}.
Arguments form {Account}.
Arguments error {Account}.
Arguments loading {Account}.
Arguments page {Account}.
Arguments items {Account}.
Arguments auth {Account}.

Section Submit.
Context {W Account : Type}.
(** [err.response?.data?.message], for an error that has it. *)
Variable response_message : Exn -> option string.
Variable taskService : AuthService.t W Account.

(** [err.response?.data?.message || err.message || 'Something went wrong'] *)
Definition error_text (err : Exn) : string :=
  let fallback :=
    if AuthProvider.truthy (message err) then message err
    else "Something went wrong" in
  match response_message err with
  | Some m => if AuthProvider.truthy m then m else fallback
  | None => fallback
  end.

(** [type] is ['login'] or, for any other value, registration. *)
Definition handleSubmit (type : string) (c : client Account) (w : W)
  : client Account * W :=
  let call :=
    if String.eqb type "login"
    then AuthService.login taskService (email (form c)) (password (form c))
    else AuthService.register taskService
           (name (form c)) (email (form c)) (password (form c)) in
  match call w with
  | (Returned d, w') =>
      let '(ls, st) := AuthProvider.login d (items c) (auth c) in
      (mkClient (form c) "" false "dashboard" ls st, w')
  | (Thrown err, w') =>
      (mkClient (form c) (error_text err) false (page c) (items c) (auth c), w')
  end.

End Submit.

End AuthForm.

(** The auth calls of the service in demo mode; a mock error has no
    [response]. *)
Definition demo_auth : AuthService.t unit MockAuth.account :=
  AuthService.mk MockAuth.login MockAuth.register.

Definition no_response (err : Exn) : option string := None.

(** ** src/App.jsx: App and Navbar *)

Module App.

(** What [App] returns: the spinner while [AuthProvider] is loading, else
    the page under the [Navbar]. *)
Inductive screen : Type :=
| Loader
| LoginForm
| RegisterForm
| DashboardPage
| Nothing
| HomePage.

(** The redirect effect. *)
Definition redirect {Account} (page : string) (st : AuthProvider.state Account)
  : string :=
  if AuthProvider.loading st then page
  else
    match AuthProvider.user st with
    | Some _ =>
        if String.eqb page "login" || String.eqb page "register"
           || String.eqb page "home"
        then "dashboard" else page
    | None => if String.eqb page "dashboard" then "login" else page
    end.

Definition renderPage {Account} (page : string) (st : AuthProvider.state Account)
  : screen :=
  if String.eqb page "login" then LoginForm
  else if String.eqb page "register" then RegisterForm
  else if String.eqb page "dashboard" then
    match AuthProvider.user st with Some _ => DashboardPage | None => Nothing end
  else HomePage.

Definition render {Account} (page : string) (st : AuthProvider.state Account)
  : screen :=
  if AuthProvider.loading st then Loader else renderPage page st.

(** [Navbar]'s [handleLogout]: [logout(); navigate('login')]. *)
Definition handleLogout {Account} (ls : AuthProvider.items Account)
    (st : AuthProvider.state Account)
  : AuthProvider.items Account * AuthProvider.state Account * string :=
  (AuthProvider.logout ls st, "login").

End App.

(** ** src/App.jsx: what the Dashboard asks of the service *)

(** The options of the [select] of a [TaskItem]. *)
Inductive StatusOption : Type := option_todo | option_in_progress | option_done.

Definition option_value (o : StatusOption) : string :=
  match o with
  | option_todo => "todo"
  | option_in_progress => "in-progress"
  | option_done => "done"
  end.

(** What the user can do on the Dashboard. *)
Inductive Action : Type :=
| Reload
| AddTask (title : string)
| SelectStatus (id : string) (o : StatusOption)
| DeleteTask (id : string).

(** The call of the service that each action leads to, with the guard of
    [handleAddTask]; the world after it. *)
Definition perform (env : Env) (a : Action) (w : World) : World :=
  match a with
  | Reload => (taskService.getAll env w).2
  | AddTask title =>
      if is_blank title then w else (taskService.create env title w).2
  | SelectStatus id o => (taskService.update env id (option_value o) w).2
  | DeleteTask id => (taskService.delete env id w).2
  end.

(** The worlds that a session on the Dashboard can lead to, from nothing
    stored on either side. *)
Inductive visited : World -> Prop :=
| visited_start : visited (mkWorld None ∅)
| visited_step (env : Env) (a : Action) (w : World) :
    visited w -> visited (perform env a w).

(** A status of the enumeration and a title that is not blank. *)
Definition tidy (title status : string) : Prop :=
  Task.in_enum status = true /\ is_blank title = false.

Definition tidy_collection (db : gmap string Task.doc) : Prop :=
  forall k t, db !! k = Some t -> tidy (Task.title t) (Task.status t).

Definition tidy_array (l : list MockBackend.task) : Prop :=
  Forall (fun t => tidy (MockBackend.title t) (MockBackend.status t)) l.

(** ** Further names for the API *)


(** The status code that a request is answered with. *)
Definition answered (c : Call) (db : gmap string Task.doc) : nat :=
  match (run c db).1 with
  | Returned r => code r
  | Thrown _ => 0
  end.

(** The same, as Express receives the request. *)
Definition serve (c : Call) : Async (gmap string Task.doc) Response :=
  match c with
  | GET_tasks req => Express.getTasks req
  | POST_tasks oid now req => Express.createTask oid now req
  | PUT_task now req => Express.updateTask now req
  | DELETE_task req => Express.deleteTask req
  end.

Definition replied (c : Call) (db : gmap string Task.doc) : nat :=
  match (serve c db).1 with
  | Returned r => code r
  | Thrown _ => 0
  end.

(** [Task.find({ user })], the list alone. *)
Definition tasks_of (owner : string) (db : gmap string Task.doc) : list Task.doc :=
  (map_to_list (filter (fun kv => Task.user kv.2 = owner) db)).*2.


(* ================================================================= *)
(** * Properties of the task service *)

(** ** The handlers, case by case *)

Section HandlerEquations.
Variables (db : gmap string Task.doc) (req : Request.t) (now : N).

Lemma updateTask_absent :
  db !! Request.params_id req = None ->
  updateTask now req db = (Returned NotFound, db).
Proof.
  intros Hnone.
  unfold updateTask, try_catch, bind, Task.findById. by rewrite Hnone.
Qed.

Lemma deleteTask_absent :
  db !! Request.params_id req = None ->
  deleteTask req db = (Returned NotFound, db).
Proof.
  intros Hnone.
  unfold deleteTask, try_catch, bind, Task.findById. by rewrite Hnone.
Qed.

Lemma updateTask_unauthenticated (t : Task.doc) :
  db !! Request.params_id req = Some t ->
  Request.user req = None ->
  updateTask now req db = (Returned Unauthenticated, db).
Proof.
  intros Hsome Huser.
  unfold updateTask, try_catch, bind, Task.findById. by rewrite Hsome, Huser.
Qed.

Lemma deleteTask_unauthenticated (t : Task.doc) :
  db !! Request.params_id req = Some t ->
  Request.user req = None ->
  deleteTask req db = (Returned Unauthenticated, db).
Proof.
  intros Hsome Huser.
  unfold deleteTask, try_catch, bind, Task.findById. by rewrite Hsome, Huser.
Qed.

Lemma updateTask_not_owner (t : Task.doc) (u : User.t) :
  db !! Request.params_id req = Some t ->
  Request.user req = Some u ->
  Task.user t <> User.id u ->
  updateTask now req db = (Returned Unauthorized, db).
Proof.
  intros Hsome Huser Hne.
  unfold updateTask, try_catch, bind, Task.findById. rewrite Hsome, Huser.
  apply String.eqb_neq in Hne. by rewrite Hne.
Qed.

Lemma deleteTask_not_owner (t : Task.doc) (u : User.t) :
  db !! Request.params_id req = Some t ->
  Request.user req = Some u ->
  Task.user t <> User.id u ->
  deleteTask req db = (Returned Unauthorized, db).
Proof.
  intros Hsome Huser Hne.
  unfold deleteTask, try_catch, bind, Task.findById. rewrite Hsome, Huser.
  apply String.eqb_neq in Hne. by rewrite Hne.
Qed.

Lemma updateTask_owner (t : Task.doc) (u : User.t) :
  db !! Request.params_id req = Some t ->
  Request.user req = Some u ->
  Task.user t = User.id u ->
  updateTask now req db =
    (Returned (mkResponse 200
       (JTask (Some (Task.applyUpdate (Request.body req) now t)))),
     <[Request.params_id req := Task.applyUpdate (Request.body req) now t]> db).
Proof.
  intros Hsome Huser Heq.
  unfold updateTask, try_catch, bind, Task.findById, Task.findByIdAndUpdate.
  rewrite Hsome, Huser. apply String.eqb_eq in Heq. rewrite Heq. simpl.
  by rewrite Hsome.
Qed.

Lemma deleteTask_owner (t : Task.doc) (u : User.t) :
  db !! Request.params_id req = Some t ->
  Request.user req = Some u ->
  Task.user t = User.id u ->
  deleteTask req db =
    (Returned (mkResponse 200 (JId (Request.params_id req))),
     delete (Task._id t) db).
Proof.
  intros Hsome Huser Heq.
  unfold deleteTask, try_catch, bind, Task.findById, Task.deleteOne.
  rewrite Hsome, Huser. apply String.eqb_eq in Heq. by rewrite Heq.
Qed.

Lemma getTasks_authenticated (u : User.t) :
  Request.user req = Some u ->
  getTasks req db =
    (Returned (mkResponse 200
       (JTasks (map_to_list (filter (fun kv => Task.user kv.2 = User.id u) db)).*2)),
     db).
Proof.
  intros Huser.
  unfold getTasks, try_catch, bind, req_user_id, Task.find. by rewrite Huser.
Qed.


End HandlerEquations.

(** What [Task.find] returns: exactly the stored documents of that owner. *)
Lemma elem_of_find (db : gmap string Task.doc) (owner : string) (t : Task.doc) :
  t ∈ (map_to_list (filter (fun kv => Task.user kv.2 = owner) db)).*2 <->
  Task.user t = owner /\ exists k, db !! k = Some t.
Proof.
  rewrite list_elem_of_fmap. split.
  - intros [[k t'] [-> Hin]]. apply elem_of_map_to_list in Hin.
    apply map_lookup_filter_Some in Hin as [Hk Hu]. simpl in *.
    split; [done | by exists k].
  - intros [Hu [k Hk]]. exists (k, t). split; [done |].
    apply elem_of_map_to_list, map_lookup_filter_Some. by split.
Qed.

Section CreateEquations.
Variables (db : gmap string Task.doc) (req : Request.t) (oid : ObjectId) (now : N).

Lemma createTask_no_title :
  no_title req = true ->
  createTask oid now req db = (Returned TitleRequired, db).
Proof. intros Hno. unfold createTask. by rewrite Hno. Qed.

Lemma createTask_unauthenticated :
  no_title req = false ->
  Request.user req = None ->
  createTask oid now req db =
    (Returned (InternalError
       (TypeError "Cannot read properties of undefined (reading 'id')")), db).
Proof.
  intros Hno Huser. unfold createTask, try_catch, bind, req_user_id.
  by rewrite Hno, Huser.
Qed.

Lemma no_title_false :
  no_title req = false ->
  exists ttl, Fields.title (Request.body req) = Some ttl /\ ttl <> "".
Proof.
  unfold no_title. destruct (Fields.title (Request.body req)) as [ttl |]; [| done].
  intros Hne. exists ttl. split; [done |]. by apply String.eqb_neq.
Qed.

Lemma createTask_fresh (u : User.t) (ttl : string) :
  Request.user req = Some u ->
  Fields.title (Request.body req) = Some ttl ->
  ttl <> "" ->
  db !! oid = None ->
  createTask oid now req db =
    (Returned (mkResponse 200
       (JTask (Some (Task.mk oid (User.id u) ttl "todo" now now)))),
     <[oid := Task.mk oid (User.id u) ttl "todo" now now]> db).
Proof.
  intros Huser Httl Hne Hfresh. apply String.eqb_neq in Hne.
  unfold createTask, no_title. rewrite Httl, Hne.
  unfold try_catch, bind, req_user_id, Task.create, Task.validate. rewrite Huser.
  simpl. rewrite ?Hne. simpl. by rewrite Hfresh.
Qed.

Lemma createTask_duplicate (u : User.t) (t : Task.doc) :
  no_title req = false ->
  Request.user req = Some u ->
  db !! oid = Some t ->
  createTask oid now req db =
    (Returned (InternalError (MongoServerError "E11000 duplicate key error")), db).
Proof.
  intros Hno Huser Hdup.
  destruct (no_title_false Hno) as (ttl & Httl & Hne). apply String.eqb_neq in Hne.
  unfold createTask. rewrite Hno.
  unfold try_catch, bind, req_user_id, Task.create, Task.validate. rewrite Huser.
  simpl. rewrite Httl. simpl. rewrite Hne. simpl. by rewrite Hdup.
Qed.

(** [createTask] either leaves the collection alone or adds one document
    under an identifier that was free. *)
Lemma createTask_cases :
  (exists r, createTask oid now req db = (Returned r, db) /\ code r <> 200) \/
  (exists u ttl,
      Request.user req = Some u /\
      Fields.title (Request.body req) = Some ttl /\ ttl <> "" /\
      db !! oid = None /\
      createTask oid now req db =
        (Returned (mkResponse 200
           (JTask (Some (Task.mk oid (User.id u) ttl "todo" now now)))),
         <[oid := Task.mk oid (User.id u) ttl "todo" now now]> db)).
Proof.
  destruct (no_title req) eqn:Hno.
  { left. eexists. split; [by apply createTask_no_title | done]. }
  destruct (Request.user req) as [u |] eqn:Huser.
  2:{ left. eexists. split; [by apply createTask_unauthenticated | done]. }
  destruct (db !! oid) as [t |] eqn:Hfresh.
  { left. eexists. split; [by eapply createTask_duplicate | done]. }
  destruct (no_title_false Hno) as (ttl & Httl & Hne).
  right. exists u, ttl. repeat split; try done. by apply createTask_fresh.
Qed.

End CreateEquations.

(** The documents of one owner, when nobody else's are asked for. *)
Lemma find_after_first_insert
    (db : gmap string Task.doc) (owner : string) (t : Task.doc) (oid : ObjectId) :
  Task.user t = owner ->
  (forall k t', db !! k = Some t' -> Task.user t' <> owner) ->
  (map_to_list (filter (fun kv => Task.user kv.2 = owner) (<[oid := t]> db))).*2 = [t].
Proof.
  intros Hown Hnone.
  rewrite map_filter_insert_True by done.
  assert (Hempty : filter (fun kv : string * Task.doc => Task.user kv.2 = owner) db = ∅).
  { apply map_empty. intros k. apply map_lookup_filter_None.
    right. intros t' Hk Hu. by apply (Hnone k t'). }
  rewrite Hempty, insert_empty, map_to_list_singleton. done.
Qed.

(** Every run of [updateTask]: either the collection is left alone, or the
    requester owns the task found and it is replaced by [applyUpdate] of
    itself. *)
Lemma updateTask_cases (db : gmap string Task.doc) (req : Request.t) (now : N) :
  (exists r, updateTask now req db = (Returned r, db) /\ code r <> 200) \/
  (exists t u,
      db !! Request.params_id req = Some t /\
      Request.user req = Some u /\ Task.user t = User.id u /\
      updateTask now req db =
        (Returned (mkResponse 200
           (JTask (Some (Task.applyUpdate (Request.body req) now t)))),
         <[Request.params_id req := Task.applyUpdate (Request.body req) now t]> db)).
Proof.
  destruct (db !! Request.params_id req) as [t |] eqn:Hid.
  2:{ left. eexists. split; [by apply updateTask_absent | done]. }
  destruct (Request.user req) as [u |] eqn:Huser.
  2:{ left. eexists. split; [by eapply updateTask_unauthenticated | done]. }
  destruct (decide (Task.user t = User.id u)) as [Heq | Hne].
  - right. exists t, u. repeat split; try done. by apply (updateTask_owner db req now t u).
  - left. eexists. split; [by eapply updateTask_not_owner | done].
Qed.

(** Every run of [deleteTask] leaves the collection alone or removes one key. *)
Lemma deleteTask_cases (db : gmap string Task.doc) (req : Request.t) :
  (deleteTask req db).2 = db \/ exists k, (deleteTask req db).2 = delete k db.
Proof.
  destruct (db !! Request.params_id req) as [t |] eqn:Hid.
  2:{ left. by rewrite deleteTask_absent. }
  destruct (Request.user req) as [u |] eqn:Huser.
  2:{ left. by erewrite deleteTask_unauthenticated. }
  destruct (decide (Task.user t = User.id u)) as [Heq | Hne].
  - right. exists (Task._id t). by erewrite deleteTask_owner.
  - left. by erewrite deleteTask_not_owner.
Qed.

(** ** The handlers behind Mongoose's casts *)

Section ExpressEquations.
Variables (db : gmap string Task.doc) (req : Request.t) (now : N).

(** An identifier that is no ObjectId: the lookup throws and the handler
    answers 500. *)
Lemma Express_updateTask_malformed :
  Mongoose.castObjectId (Request.params_id req) = None ->
  Express.updateTask now req db =
    (Returned (InternalError (Mongoose.CastError (Request.params_id req) "_id")), db).
Proof.
  intros Hcast. unfold Express.updateTask, try_catch, bind, Mongoose.findById.
  by rewrite Hcast.
Qed.

Lemma Express_deleteTask_malformed :
  Mongoose.castObjectId (Request.params_id req) = None ->
  Express.deleteTask req db =
    (Returned (InternalError (Mongoose.CastError (Request.params_id req) "_id")), db).
Proof.
  intros Hcast. unfold Express.deleteTask, try_catch, bind, Mongoose.findById.
  by rewrite Hcast.
Qed.

(** Once the identifier and the body are cast, the handler is [updateTask]
    on what they were cast to. *)
Lemma Express_updateTask_cast (id : ObjectId) (upd : Fields.t) :
  Mongoose.castObjectId (Request.params_id req) = Some id ->
  Mongoose.castFields (Request.body req) = Some upd ->
  Express.updateTask now req db
    = updateTask now (Request.mk (Request.user req) upd id) db.
Proof.
  intros Hid Hupd.
  unfold Express.updateTask, updateTask, try_catch, bind,
    Mongoose.findById, Mongoose.findByIdAndUpdate.
  rewrite Hid, Hupd. simpl.
  unfold Task.findById. destruct (db !! id) as [t |]; [| done].
  destruct (Request.user req) as [u |]; [| done].
  by destruct (negb (String.eqb (Task.user t) (User.id u))).
Qed.

(** A body whose [user] is no ObjectId: whoever is refused is refused as
    before, and the owner is answered 500 with nothing written. *)
Lemma Express_updateTask_bad_owner (id : ObjectId) (t : Task.doc) (u : User.t) :
  Mongoose.castObjectId (Request.params_id req) = Some id ->
  Mongoose.castFields (Request.body req) = None ->
  db !! id = Some t ->
  Request.user req = Some u ->
  Task.user t = User.id u ->
  Express.updateTask now req db =
    (Returned (InternalError
       (Mongoose.CastError (default "" (Fields.user (Request.body req))) "user")), db).
Proof.
  intros Hid Hupd Hk Huser Hown.
  unfold Express.updateTask, try_catch, bind,
    Mongoose.findById, Mongoose.findByIdAndUpdate.
  rewrite Hid, Hupd. simpl. unfold Task.findById. rewrite Hk, Huser.
  apply String.eqb_eq in Hown. by rewrite Hown.
Qed.

(** Whatever the body, nobody but the owner gets as far as the update. *)
Lemma Express_updateTask_refused (id : ObjectId) :
  Mongoose.castObjectId (Request.params_id req) = Some id ->
  (forall t u, db !! id = Some t -> Request.user req = Some u ->
               Task.user t <> User.id u) ->
  Express.updateTask now req db
    = updateTask now (Request.mk (Request.user req) (Request.body req) id) db.
Proof.
  intros Hid Hnot.
  unfold Express.updateTask, updateTask, try_catch, bind, Mongoose.findById.
  rewrite Hid. simpl. unfold Task.findById.
  destruct (db !! id) as [t |] eqn:Hk; [| done].
  destruct (Request.user req) as [u |] eqn:Huser; [| done].
  pose proof (Hnot t u eq_refl eq_refl) as Hne.
  apply String.eqb_neq in Hne. by rewrite Hne.
Qed.

(** Once the identifier is cast, the handler is [deleteTask] on what it was
    cast to, but for the [id] of the answer, which is the string of the
    request. *)
Lemma Express_deleteTask_cast (id : ObjectId) :
  Mongoose.castObjectId (Request.params_id req) = Some id ->
  let typed := deleteTask (Request.mk (Request.user req) (Request.body req) id) db in
  (Express.deleteTask req db).2 = typed.2 /\
  (forall r, typed.1 = Returned r ->
     exists r', (Express.deleteTask req db).1 = Returned r' /\ code r' = code r /\
                (code r <> 200 -> r' = r) /\
                (code r = 200 -> json r' = JId (Request.params_id req))).
Proof.
  intros Hid. simpl.
  unfold Express.deleteTask, deleteTask, try_catch, bind, Mongoose.findById.
  rewrite Hid. simpl. unfold Task.findById.
  destruct (db !! id) as [t |]; simpl.
  2:{ split; [done |]. intros r [= <-]. eexists. by repeat split. }
  destruct (Request.user req) as [u |]; simpl.
  2:{ split; [done |]. intros r [= <-]. eexists. by repeat split. }
  destruct (negb (String.eqb (Task.user t) (User.id u))); simpl.
  - split; [done |]. intros r [= <-]. eexists. by repeat split.
  - split; [done |]. intros r [= <-]. eexists. by repeat split.
Qed.

Lemma Express_getTasks_cast (u : User.t) (oid : ObjectId) :
  Request.user req = Some u ->
  Mongoose.castObjectId (User.id u) = Some oid ->
  Express.getTasks req db
    = (Returned (mkResponse 200
         (JTasks (map_to_list (filter (fun kv => Task.user kv.2 = oid) db)).*2)), db).
Proof.
  intros Huser Hcast.
  unfold Express.getTasks, try_catch, bind, req_user_id, Mongoose.find, Task.find.
  rewrite Huser. simpl. by rewrite Hcast.
Qed.

Lemma Express_getTasks_collection : (Express.getTasks req db).2 = db.
Proof.
  unfold Express.getTasks, try_catch, bind, req_user_id, Mongoose.find, Task.find.
  destruct (Request.user req) as [u |]; [| done]. simpl.
  by destruct (Mongoose.castObjectId (User.id u)).
Qed.

Lemma Express_createTask_cast (oid : ObjectId) (u : User.t) (uid : ObjectId) :
  Request.user req = Some u ->
  Mongoose.castObjectId (User.id u) = Some uid ->
  Express.createTask oid now req db
    = createTask oid now
        (Request.mk (Some (User.mk uid)) (Request.body req) (Request.params_id req)) db.
Proof.
  intros Huser Hcast.
  unfold Express.createTask, createTask, no_title. simpl.
  destruct (Fields.title (Request.body req)) as [ttl |]; [| done].
  destruct (String.eqb ttl ""); [done |].
  unfold try_catch, bind, req_user_id, Mongoose.create, Mongoose.castFields.
  rewrite Huser. simpl. by rewrite Hcast.
Qed.

(** [Express.createTask] leaves the collection alone or adds one document
    with the title of the request and status "todo". *)
Lemma Express_createTask_cases (oid : ObjectId) :
  (Express.createTask oid now req db).2 = db \/
  (exists uid ttl,
      Fields.title (Request.body req) = Some ttl /\ ttl <> "" /\
      db !! oid = None /\
      (Express.createTask oid now req db).2
        = <[oid := Task.mk oid uid ttl "todo" now now]> db).
Proof.
  destruct (Request.user req) as [u |] eqn:Huser.
  - destruct (Mongoose.castObjectId (User.id u)) as [uid |] eqn:Hcast.
    + rewrite (Express_createTask_cast oid u uid) by done.
      destruct (createTask_cases db
                  (Request.mk (Some (User.mk uid)) (Request.body req)
                     (Request.params_id req)) oid now)
        as [(r & -> & _) | (u' & ttl & Hu' & Httl & Hne & Hfresh & ->)];
        [by left |].
      right. simpl in *. injection Hu' as <-. by exists uid, ttl.
    + left. unfold Express.createTask. destruct (no_title req); [done |].
      unfold try_catch, bind, req_user_id, Mongoose.create, Mongoose.castFields.
      rewrite Huser. simpl. by rewrite Hcast.
  - left. unfold Express.createTask. destruct (no_title req); [done |].
    unfold try_catch, bind, req_user_id. by rewrite Huser.
Qed.

(** Every run of [Express.updateTask]: a refusal that leaves the collection
    alone, or the update of the task found, by its owner, with the body as
    cast. *)
Lemma Express_updateTask_cases :
  (exists r, Express.updateTask now req db = (Returned r, db) /\
             (code r = 404 \/ code r = 401 \/ code r = 500)) \/
  (exists id upd t u,
      Mongoose.castObjectId (Request.params_id req) = Some id /\
      Mongoose.castFields (Request.body req) = Some upd /\
      db !! id = Some t /\
      Request.user req = Some u /\ Task.user t = User.id u /\
      Express.updateTask now req db =
        (Returned (mkResponse 200 (JTask (Some (Task.applyUpdate upd now t)))),
         <[id := Task.applyUpdate upd now t]> db)).
Proof.
  destruct (Mongoose.castObjectId (Request.params_id req)) as [id |] eqn:Hid.
  2:{ left. eexists. split; [by apply Express_updateTask_malformed |].
      right. by right. }
  destruct (db !! id) as [t |] eqn:Hk.
  2:{ left. exists NotFound. split; [| by left].
      rewrite (Express_updateTask_refused id) by (try done; congruence).
      by apply updateTask_absent. }
  destruct (Request.user req) as [u |] eqn:Huser.
  2:{ left. exists Unauthenticated. split; [| right; by left].
      rewrite (Express_updateTask_refused id) by (try done; congruence).
      by apply (updateTask_unauthenticated _ _ _ t). }
  destruct (decide (Task.user t = User.id u)) as [Heq | Hne].
  2:{ left. exists Unauthorized. split; [| right; by left].
      rewrite (Express_updateTask_refused id) by (try done; congruence).
      by apply (updateTask_not_owner _ _ _ t u). }
  destruct (Mongoose.castFields (Request.body req)) as [upd |] eqn:Hupd.
  - right. exists id, upd, t, u. repeat split; try done.
    rewrite (Express_updateTask_cast id upd) by done.
    by rewrite (updateTask_owner _ _ _ t u).
  - left. eexists. split; [by apply (Express_updateTask_bad_owner id t u) |].
    right. by right.
Qed.

(** Every run of [Express.deleteTask]: a refusal that leaves the collection
    alone, or the removal of the task found, by its owner. *)
Lemma Express_deleteTask_cases :
  (exists r, Express.deleteTask req db = (Returned r, db) /\
             (code r = 404 \/ code r = 401 \/ code r = 500)) \/
  (exists id t u,
      Mongoose.castObjectId (Request.params_id req) = Some id /\
      db !! id = Some t /\
      Request.user req = Some u /\ Task.user t = User.id u /\
      Express.deleteTask req db =
        (Returned (mkResponse 200 (JId (Request.params_id req))),
         delete (Task._id t) db)).
Proof.
  destruct (Mongoose.castObjectId (Request.params_id req)) as [id |] eqn:Hid.
  2:{ left. eexists. split; [by apply Express_deleteTask_malformed |].
      right. by right. }
  unfold Express.deleteTask, try_catch, bind, Mongoose.findById.
  rewrite Hid. simpl. unfold Task.findById.
  destruct (db !! id) as [t |] eqn:Hk.
  2:{ left. exists NotFound. split; [done | by left]. }
  destruct (Request.user req) as [u |] eqn:Huser.
  2:{ left. exists Unauthenticated. split; [done | right; by left]. }
  destruct (decide (Task.user t = User.id u)) as [Heq | Hne].
  - right. exists id, t, u. repeat split; try done.
    apply String.eqb_eq in Heq. by rewrite Heq.
  - left. exists Unauthorized. apply String.eqb_neq in Hne. rewrite Hne.
    split; [done | right; by left].
Qed.

(** No task under the identifier: 404, whoever asks. *)
Lemma Express_updateTask_absent (id : ObjectId) :
  Mongoose.castObjectId (Request.params_id req) = Some id ->
  db !! id = None ->
  Express.updateTask now req db = (Returned NotFound, db).
Proof.
  intros Hid Hk. rewrite (Express_updateTask_refused id) by (try done; congruence).
  by apply updateTask_absent.
Qed.

Lemma Express_deleteTask_absent (id : ObjectId) :
  Mongoose.castObjectId (Request.params_id req) = Some id ->
  db !! id = None ->
  Express.deleteTask req db = (Returned NotFound, db).
Proof.
  intros Hid Hk.
  unfold Express.deleteTask, try_catch, bind, Mongoose.findById.
  rewrite Hid. simpl. unfold Task.findById. by rewrite Hk.
Qed.

Lemma Express_deleteTask_owner (id : ObjectId) (t : Task.doc) (u : User.t) :
  Mongoose.castObjectId (Request.params_id req) = Some id ->
  db !! id = Some t ->
  Request.user req = Some u ->
  Task.user t = User.id u ->
  Express.deleteTask req db =
    (Returned (mkResponse 200 (JId (Request.params_id req))), delete (Task._id t) db).
Proof.
  intros Hid Hk Huser Heq.
  unfold Express.deleteTask, try_catch, bind, Mongoose.findById.
  rewrite Hid. simpl. unfold Task.findById. rewrite Hk, Huser.
  apply String.eqb_eq in Heq. by rewrite Heq.
Qed.

End ExpressEquations.

(** On a request whose identifiers are ObjectIds as [toString] prints them,
    the handlers that Express calls are [getTasks], [createTask],
    [updateTask] and [deleteTask]. *)
Lemma Express_canonical_request
    (db : gmap string Task.doc) (req : Request.t) (oid : ObjectId) (now : N) :
  canonical (Request.params_id req) ->
  (forall x, Fields.user (Request.body req) = Some x -> canonical x) ->
  (forall u, Request.user req = Some u -> canonical (User.id u)) ->
  Express.getTasks req db = getTasks req db /\
  Express.createTask oid now req db = createTask oid now req db /\
  Express.updateTask now req db = updateTask now req db /\
  Express.deleteTask req db = deleteTask req db.
Proof.
  destruct req as [who [owner ttl st] id]. simpl. intros Hid Hbody Hwho.
  assert (Hcast : Mongoose.castFields (Fields.mk owner ttl st)
                  = Some (Fields.mk owner ttl st)).
  { unfold Mongoose.castFields. simpl. destruct owner as [x |]; [| done].
    by rewrite (Hbody x eq_refl). }
  split; [| split; [| split]].
  - destruct who as [[uid] |]; [| done].
    rewrite (Express_getTasks_cast db _ (User.mk uid) uid) by (try done; by apply Hwho).
    by rewrite (getTasks_authenticated db _ (User.mk uid)).
  - destruct who as [[uid] |].
    + by rewrite (Express_createTask_cast db _ now oid (User.mk uid) uid)
        by (try done; by apply Hwho).
    + unfold Express.createTask, createTask.
      destruct (no_title _); [done |].
      by unfold try_catch, bind, req_user_id.
  - by rewrite (Express_updateTask_cast db _ now id (Fields.mk owner ttl st)).
  - unfold Express.deleteTask, deleteTask, try_catch, bind, Mongoose.findById.
    simpl. by rewrite Hid.
Qed.

(** ** Every request is answered, and documents stay under their own key *)

Lemma getTasks_collection (db : gmap string Task.doc) (req : Request.t) :
  (getTasks req db).2 = db.
Proof.
  unfold getTasks, try_catch, bind, req_user_id, Task.find.
  by destruct (Request.user req).
Qed.

(** No handler lets an exception escape: each request gets a response. *)
Lemma run_returns (c : Call) (db : gmap string Task.doc) :
  exists r, (run c db).1 = Returned r.
Proof.
  destruct c as [req | oid now req | now req | req]; simpl.
  - unfold getTasks, try_catch, bind, req_user_id, Task.find.
    destruct (Request.user req); simpl; eauto.
  - destruct (createTask_cases db req oid now)
      as [(r & -> & _) | (u & ttl & _ & _ & _ & _ & ->)]; simpl; eauto.
  - destruct (updateTask_cases db req now)
      as [(r & -> & _) | (t & u & _ & _ & _ & ->)]; simpl; eauto.
  - unfold deleteTask, try_catch, bind, Task.findById, Task.deleteOne.
    destruct (db !! Request.params_id req) as [t |]; simpl; eauto.
    destruct (Request.user req) as [u |]; simpl; eauto.
    destruct (negb (String.eqb (Task.user t) (User.id u))); simpl; eauto.
Qed.

Lemma run_well_keyed (c : Call) (db : gmap string Task.doc) :
  well_keyed db -> well_keyed (run c db).2.
Proof.
  intros Hkey. destruct c as [req | oid now req | now req | req]; simpl.
  - by rewrite getTasks_collection.
  - destruct (createTask_cases db req oid now)
      as [(r & -> & _) | (u & ttl & _ & _ & _ & _ & ->)]; simpl; [done |].
    intros k t Hk. destruct (decide (oid = k)) as [<- | Hne].
    + rewrite lookup_insert_eq in Hk. by injection Hk as <-.
    + rewrite lookup_insert_ne in Hk by done. by apply Hkey.
  - destruct (updateTask_cases db req now)
      as [(r & -> & _) | (t & u & Hid & _ & _ & ->)]; simpl; [done |].
    intros k t' Hk.
    destruct (decide (Request.params_id req = k)) as [<- | Hne].
    + rewrite lookup_insert_eq in Hk. injection Hk as <-. simpl. by apply Hkey.
    + rewrite lookup_insert_ne in Hk by done. by apply Hkey.
  - destruct (deleteTask_cases db req) as [-> | [k' ->]]; [done |].
    intros k t Hk. apply lookup_delete_Some in Hk as [_ Hk]. by apply Hkey.
Qed.

Lemma reachable_well_keyed (db : gmap string Task.doc) :
  reachable db -> well_keyed db.
Proof.
  induction 1 as [| db c _ IH].
  - intros k t Hk. by rewrite lookup_empty in Hk.
  - by apply run_well_keyed.
Qed.

(** In a reachable collection a stored document is found under its [_id]. *)
Lemma reachable_stored (db : gmap string Task.doc) (k : string) (t : Task.doc) :
  reachable db -> db !! k = Some t -> db !! Task._id t = Some t.
Proof.
  intros Hreach Hk. by rewrite (reachable_well_keyed db Hreach k t Hk).
Qed.

(** ** The mock's array and the server's collection, step by step *)

(** Where every run starts: nothing on either side. *)
Lemma corresponds_empty (u : User.t) : corresponds u [] ∅.
Proof.
  split; [| split].
  - intros k t Hk. by rewrite lookup_empty in Hk.
  - constructor.
  - intros x. split.
    + intros Hx. by apply elem_of_nil in Hx.
    + intros (t & Hk & _). by rewrite lookup_empty in Hk.
Qed.

Section Correspondence.
Variables (u : User.t) (l : list MockBackend.task) (db : gmap string Task.doc).
Hypothesis Hcorr : corresponds u l db.

Lemma corresponds_member (x : MockBackend.task) :
  x ∈ l ->
  exists t, db !! MockBackend._id x = Some t /\ Task.user t = User.id u /\ view t = x.
Proof. destruct Hcorr as (_ & _ & Hmem). by apply Hmem. Qed.

Lemma corresponds_owned (k : string) (t : Task.doc) :
  db !! k = Some t -> Task.user t = User.id u -> view t ∈ l /\ Task._id t = k.
Proof.
  destruct Hcorr as (Hkey & _ & Hmem). intros Hk Hu.
  pose proof (Hkey k t Hk) as Hid. split; [| done].
  apply Hmem. exists t. simpl. by rewrite Hid.
Qed.

(** The array is, up to order, what [Task.find] returns for [u]. *)
Lemma corresponds_list :
  l ≡ₚ view <$> (map_to_list (filter (fun kv => Task.user kv.2 = User.id u) db)).*2.
Proof.
  destruct Hcorr as (Hkey & Hnodup & Hmem).
  apply NoDup_Permutation.
  - by eapply NoDup_fmap_1.
  - apply (NoDup_fmap_1 MockBackend._id).
    rewrite <- list_fmap_compose.
    rewrite <- list_fmap_compose.
    erewrite list_fmap_ext; [apply NoDup_fst_map_to_list |].
    intros i [k t] Hi. simpl.
    apply list_elem_of_lookup_2, elem_of_map_to_list in Hi.
    apply map_lookup_filter_Some in Hi as [Hk _]. by apply Hkey.
  - intros x. rewrite list_elem_of_fmap. split.
    + intros Hx. apply corresponds_member in Hx as (t & Hk & Hu & <-).
      exists t. split; [done |]. apply elem_of_find. eauto.
    + intros (t & -> & Hin). apply elem_of_find in Hin as (Hu & k & Hk).
      by apply (corresponds_owned k t).
Qed.

Lemma view_applyUpdate (upd : Fields.t) (now : N) (t : Task.doc) :
  view (Task.applyUpdate upd now t) = MockBackend.spread (view t) upd.
Proof. reflexivity. Qed.

(** An update that carries no [user] keeps the two stores in step. *)
Lemma corresponds_update (id : string) (upd : Fields.t) (now : N)
    (i : nat) (t : Task.doc) :
  Fields.user upd = None ->
  db !! id = Some t -> Task.user t = User.id u ->
  l !! i = Some (view t) ->
  corresponds u (<[i := MockBackend.spread (view t) upd]> l)
                (<[id := Task.applyUpdate upd now t]> db).
Proof.
  intros Hupd Hk Hu Hi.
  destruct Hcorr as (Hkey & Hnodup & Hmem).
  assert (Hid : Task._id t = id) by by apply Hkey.
  assert (Hlen : i < length l) by by eapply lookup_lt_Some.
  split; [| split].
  - intros k t' Hk'. destruct (decide (id = k)) as [<- | Hne].
    + rewrite lookup_insert_eq in Hk'. injection Hk' as <-. simpl. by apply Hkey.
    + rewrite lookup_insert_ne in Hk' by done. by apply Hkey.
  - rewrite list_fmap_insert. simpl. rewrite list_insert_id; [done |].
    by rewrite list_lookup_fmap, Hi.
  - intros y. split.
    + intros Hy. apply list_elem_of_lookup in Hy as [j Hj].
      apply list_lookup_insert_Some in Hj as [(<- & <- & _) | (Hij & Hj)].
      * exists (Task.applyUpdate upd now t). simpl. rewrite Hid, lookup_insert_eq.
        split; [done |]. split; [by rewrite Hupd | done].
      * assert (Hy : y ∈ l) by by eapply list_elem_of_lookup_2.
        assert (Hne : MockBackend._id y <> id).
        { intros Heq. apply Hij.
          eapply (NoDup_lookup (MockBackend._id <$> l)); [done | ..].
          - by rewrite list_lookup_fmap, Hi.
          - rewrite list_lookup_fmap, Hj. simpl. by rewrite Heq, Hid. }
        apply Hmem in Hy as (t' & Hk' & Hu' & Hv). exists t'.
        by rewrite lookup_insert_ne.
    + intros (t' & Hk' & Hu' & <-). simpl in Hk'.
      destruct (decide (id = Task._id t')) as [Heq | Hne].
      * rewrite <- Heq, lookup_insert_eq in Hk'. injection Hk' as <-.
        rewrite view_applyUpdate. by apply list_elem_of_insert.
      * rewrite lookup_insert_ne in Hk' by done.
        assert (Hy : view t' ∈ l) by (apply Hmem; by exists t').
        apply list_elem_of_lookup in Hy as [j Hj].
        apply list_elem_of_lookup. exists j. rewrite list_lookup_insert_ne; [done |].
        intros <-. rewrite Hi in Hj. injection Hj as Hj.
        apply Hne. rewrite <- Hid. by rewrite Hj.
Qed.

(** A new document of [u] under a free identifier, pushed on the array. *)
Lemma corresponds_create (oid : ObjectId) (t : Task.doc) :
  db !! oid = None -> Task._id t = oid -> Task.user t = User.id u ->
  corresponds u (l ++ [view t]) (<[oid := t]> db).
Proof.
  intros Hfresh Hid Hu.
  destruct Hcorr as (Hkey & Hnodup & Hmem).
  split; [| split].
  - intros k t' Hk'. destruct (decide (oid = k)) as [<- | Hne].
    + rewrite lookup_insert_eq in Hk'. by injection Hk' as <-.
    + rewrite lookup_insert_ne in Hk' by done. by apply Hkey.
  - rewrite fmap_app. apply NoDup_app. split; [done |]. split.
    + intros k Hk Hk'. simpl in Hk'. apply list_elem_of_singleton in Hk'.
      apply list_elem_of_fmap in Hk as (y & -> & Hy).
      apply Hmem in Hy as (t' & Hlook & _). rewrite Hk', Hid in Hlook. congruence.
    + simpl. apply NoDup_singleton.
  - intros y. rewrite elem_of_app, list_elem_of_singleton. split.
    + intros [Hy | ->].
      * apply Hmem in Hy as (t' & Hk' & Hu' & Hv). exists t'.
        rewrite lookup_insert_ne; [done |]. intros Heq. congruence.
      * exists t. simpl. by rewrite Hid, lookup_insert_eq.
    + intros (t' & Hk' & Hu' & <-). simpl in Hk'.
      destruct (decide (oid = Task._id t')) as [Heq | Hne].
      * rewrite <- Heq, lookup_insert_eq in Hk'. injection Hk' as <-. by right.
      * rewrite lookup_insert_ne in Hk' by done. left. apply Hmem. by exists t'.
Qed.

Lemma NoDup_filter_ids (id : string) :
  NoDup (MockBackend._id <$> filter (fun x => MockBackend._id x <> id) l).
Proof.
  destruct Hcorr as (_ & Hnodup & _).
  eapply sublist_NoDup; [exact Hnodup | apply fmap_sublist, sublist_filter].
Qed.

(** Filtering an identifier out of the array, and deleting its key. *)
Lemma corresponds_delete (id : string) :
  corresponds u (filter (fun x => MockBackend._id x <> id) l) (delete id db).
Proof.
  pose proof (NoDup_filter_ids id) as Hnd.
  destruct Hcorr as (Hkey & _ & Hmem).
  split; [| split; [done |]].
  - intros k t Hk. apply lookup_delete_Some in Hk as [_ Hk]. by apply Hkey.
  - intros y. rewrite list_elem_of_filter, Hmem. split.
    + intros (Hne & t & Hk & Hu & Hv). exists t. by rewrite lookup_delete_ne.
    + intros (t & Hk & Hu & Hv). apply lookup_delete_Some in Hk as [Hne Hk].
      split; [done | by exists t].
Qed.

End Correspondence.

(** ** The mock's names and the server's *)

Lemma rename_spread (names : string -> string) (x : MockBackend.task) (upd : Fields.t) :
  rename names (MockBackend.spread x upd) = MockBackend.spread (rename names x) upd.
Proof. reflexivity. Qed.

Lemma extend_same (names : string -> string) (m k : string) :
  extend names m k m = k.
Proof. unfold extend. by rewrite String.eqb_refl. Qed.

Lemma extend_other (names : string -> string) (m k x : string) :
  x <> m -> extend names m k x = names x.
Proof. intros Hne. unfold extend. apply String.eqb_neq in Hne. by rewrite Hne. Qed.

(** A new name changes nothing in an array that does not use it. *)
Lemma rename_extend (names : string -> string) (m k : string)
    (l : list MockBackend.task) :
  m ∉ MockBackend._id <$> l ->
  rename (extend names m k) <$> l = rename names <$> l.
Proof.
  intros Hfresh. apply list_fmap_ext. intros i x Hi. unfold rename.
  rewrite extend_other; [done |]. intros Heq. apply Hfresh.
  apply list_elem_of_fmap. exists x. split; [done |].
  by eapply list_elem_of_lookup_2.
Qed.

(** Names that are pairwise distinct on the array tell its entries apart as
    the mock's identifiers do. *)
Lemma names_injective (names : string -> string) (l : list MockBackend.task)
    (x y : MockBackend.task) :
  NoDup (MockBackend._id <$> (rename names <$> l)) ->
  x ∈ l -> y ∈ l ->
  names (MockBackend._id x) = names (MockBackend._id y) -> x = y.
Proof.
  intros Hnodup Hx Hy Heq.
  apply list_elem_of_lookup in Hx as [i Hi]. apply list_elem_of_lookup in Hy as [j Hj].
  assert (Hij : i = j).
  { eapply NoDup_lookup; [exact Hnodup | ..].
    - by rewrite !list_lookup_fmap, Hi.
    - rewrite !list_lookup_fmap, Hj. simpl. by rewrite Heq. }
  subst j. congruence.
Qed.

Lemma fmap_filter_commute {A B} (f : A -> B) (P : A -> Prop) (Q : B -> Prop)
    `{!forall x, Decision (P x)} `{!forall y, Decision (Q y)} (l : list A) :
  Forall (fun x => P x <-> Q (f x)) l ->
  f <$> filter P l = filter Q (f <$> l).
Proof.
  induction 1 as [| x l Hx _ IH]; [done |].
  rewrite fmap_cons, !filter_cons.
  destruct (decide (P x)), (decide (Q (f x))); try tauto.
  by rewrite fmap_cons, IH.
Qed.

(** Filtering a task out of the array, under either name. *)
Lemma rename_filter (names : string -> string) (l : list MockBackend.task) (m : string) :
  NoDup (MockBackend._id <$> (rename names <$> l)) ->
  m ∈ MockBackend._id <$> l ->
  rename names <$> filter (fun x => MockBackend._id x <> m) l
    = filter (fun x => MockBackend._id x <> names m) (rename names <$> l).
Proof.
  intros Hnodup Hm. apply list_elem_of_fmap in Hm as (y & -> & Hy).
  apply fmap_filter_commute, Forall_forall. intros x Hx. simpl. split.
  - intros Hne Heq. apply Hne. f_equal. by apply (names_injective names l).
  - intros Hne Heq. apply Hne. by rewrite Heq.
Qed.

(** Filtering an identifier that the array does not use. *)
Lemma filter_absent_id (l : list MockBackend.task) (m : string) :
  m ∉ MockBackend._id <$> l ->
  filter (fun x => MockBackend._id x <> m) l = l.
Proof.
  induction l as [| x l IH]; [done |].
  rewrite fmap_cons, not_elem_of_cons. intros [Hx Hl].
  rewrite filter_cons_True by done. by rewrite IH.
Qed.

(** ** The service in its two modes *)

Section ServiceEquations.
Variables (env : Env) (ls : MockBackend.storage) (db : gmap string Task.doc).
Variables (u : User.t).
Hypothesis Hsession : session env = Some u.

Lemma demo_update_found (id status : string) (i : nat) (x : MockBackend.task) :
  list_find (fun y => MockBackend._id y = id) (MockBackend.read ls) = Some (i, x) ->
  taskService.update (demo env) id status (mkWorld ls db) =
    (Returned (MockTask (MockBackend.spread x (Fields.mk None None (Some status)))),
     mkWorld (Some (<[i := MockBackend.spread x (Fields.mk None None (Some status))]>
                      (MockBackend.read ls))) db).
Proof.
  intros Hfind. unfold taskService.update, bind, on_mock, MockBackend.updateTask.
  simpl. by rewrite Hfind.
Qed.

Lemma demo_update_missing (id status : string) :
  list_find (fun y => MockBackend._id y = id) (MockBackend.read ls) = None ->
  taskService.update (demo env) id status (mkWorld ls db) =
    (Thrown (Error "Task not found"), mkWorld ls db).
Proof.
  intros Hfind. unfold taskService.update, bind, on_mock, MockBackend.updateTask.
  simpl. by rewrite Hfind.
Qed.

Lemma live_update_owner (id : string) (k : ObjectId) (status : string) (t : Task.doc) :
  Mongoose.castObjectId id = Some k ->
  db !! k = Some t -> Task.user t = User.id u ->
  taskService.update (live env) id status (mkWorld ls db) =
    (Returned (Remote (JTask (Some
       (Task.applyUpdate (Fields.mk None None (Some status)) (clock env) t)))),
     mkWorld ls (<[k := Task.applyUpdate (Fields.mk None None (Some status))
                          (clock env) t]> db)).
Proof.
  intros Hid Hk Hu. unfold taskService.update, bind, api. simpl.
  rewrite (Express_updateTask_cast db _ (clock env) k (Fields.mk None None (Some status)))
    by done.
  by rewrite (updateTask_owner db _ (clock env) t u).
Qed.

Lemma live_update_refused (id status : string) :
  (forall k t, Mongoose.castObjectId id = Some k -> db !! k = Some t ->
               Task.user t <> User.id u) ->
  exists st, (st = 404 \/ st = 401 \/ st = 500) /\
    taskService.update (live env) id status (mkWorld ls db) =
      (Thrown (AxiosError st ("Request failed with status code " +:+ pretty st)),
       mkWorld ls db).
Proof.
  intros Hnot. unfold taskService.update, bind, api. simpl.
  destruct (Express_updateTask_cases db
              (Request.mk (session env) (Fields.mk None None (Some status)) id)
              (clock env))
    as [(r & -> & Hcode) | (k & upd & t & u' & Hid & _ & Hk & Hu' & Hown & _)].
  - exists (code r). split; [done |].
    by destruct Hcode as [-> | [-> | ->]].
  - simpl in *. exfalso. apply (Hnot k t Hid Hk). congruence.
Qed.

Lemma demo_create (title : string) :
  taskService.create (demo env) title (mkWorld ls db) =
    (Returned (MockTask (MockBackend.mk (pretty (clock env)) title "todo")),
     mkWorld (Some (MockBackend.read ls ++
                    [MockBackend.mk (pretty (clock env)) title "todo"])) db).
Proof. reflexivity. Qed.

Lemma live_create (title : string) :
  canonical (User.id u) ->
  title <> "" -> db !! generated env = None ->
  taskService.create (live env) title (mkWorld ls db) =
    (Returned (Remote (JTask (Some
       (Task.mk (generated env) (User.id u) title "todo" (clock env) (clock env))))),
     mkWorld ls (<[generated env :=
                   Task.mk (generated env) (User.id u) title "todo"
                           (clock env) (clock env)]> db)).
Proof.
  intros Hcan Hne Hfresh. unfold taskService.create, bind, api. simpl.
  rewrite (Express_createTask_cast db _ (clock env) (generated env) u (User.id u))
    by done.
  by rewrite (createTask_fresh db _ (generated env) (clock env)
                (User.mk (User.id u)) title).
Qed.

Lemma demo_delete (id : string) :
  taskService.delete (demo env) id (mkWorld ls db) =
    (Returned (MockAck MockBackend.success),
     mkWorld (Some (filter (fun x => MockBackend._id x <> id) (MockBackend.read ls))) db).
Proof. reflexivity. Qed.

Lemma live_delete_owner (id : string) (k : ObjectId) (t : Task.doc) :
  Mongoose.castObjectId id = Some k ->
  db !! k = Some t -> Task.user t = User.id u ->
  taskService.delete (live env) id (mkWorld ls db) =
    (Returned (Remote (JId id)), mkWorld ls (delete (Task._id t) db)).
Proof.
  intros Hid Hk Hu. unfold taskService.delete, bind, api. simpl.
  by rewrite (Express_deleteTask_owner db _ k t u).
Qed.

Lemma live_delete_refused (id : string) :
  (forall k t, Mongoose.castObjectId id = Some k -> db !! k = Some t ->
               Task.user t <> User.id u) ->
  exists st, (st = 404 \/ st = 401 \/ st = 500) /\
    taskService.delete (live env) id (mkWorld ls db) =
      (Thrown (AxiosError st ("Request failed with status code " +:+ pretty st)),
       mkWorld ls db).
Proof.
  intros Hnot. unfold taskService.delete, bind, api. simpl.
  destruct (Express_deleteTask_cases db (Request.mk (session env) Fields.empty id))
    as [(r & -> & Hcode) | (k & t & u' & Hid & Hk & Hu' & Hown & _)].
  - exists (code r). split; [done |].
    by destruct Hcode as [-> | [-> | ->]].
  - simpl in *. exfalso. apply (Hnot k t Hid Hk). congruence.
Qed.

Lemma demo_getAll_nonempty :
  MockBackend.read ls <> [] ->
  taskService.getAll (demo env) (mkWorld ls db) =
    (Returned (MockTasks (MockBackend.read ls)), mkWorld ls db).
Proof.
  intros Hne. unfold taskService.getAll, bind, on_mock, MockBackend.fetchTasks.
  simpl. by destruct (MockBackend.read ls).
Qed.

Lemma live_getAll :
  canonical (User.id u) ->
  taskService.getAll (live env) (mkWorld ls db) =
    (Returned (Remote (JTasks
       (map_to_list (filter (fun kv => Task.user kv.2 = User.id u) db)).*2)),
     mkWorld ls db).
Proof.
  intros Hcan. unfold taskService.getAll, bind, api. simpl.
  by rewrite (Express_getTasks_cast db _ u (User.id u)).
Qed.

End ServiceEquations.

(* ================================================================= *)
(** * The claims *)

(** ** C1 *)

(** C1 (ownership isolation).  Let task [t] be stored and owned by somebody
    other than the acting user [u1].  Then the list that [getTasks] answers to
    [u1] does not contain [t], and both [updateTask] and [deleteTask] on
    [t]'s identifier answer 401 "User not authorized" and leave the whole
    collection, [t] included, as it was. *)
Theorem ownership_isolation
    (db : gmap string Task.doc) (u1 : User.t) (t : Task.doc)
    (body : Fields.t) (id : string) (now : N) :
  db !! Task._id t = Some t ->
  Task.user t <> User.id u1 ->
  (exists l,
      getTasks (Request.mk (Some u1) body id) db
        = (Returned (mkResponse 200 (JTasks l)), db) /\
      (t ∉ l) /\ (forall t', t' ∈ l -> Task.user t' = User.id u1)) /\
  updateTask now (Request.mk (Some u1) body (Task._id t)) db
    = (Returned Unauthorized, db) /\
  deleteTask (Request.mk (Some u1) body (Task._id t)) db
    = (Returned Unauthorized, db).
Proof.
  intros Hstored Hother. split; [| split].
  - eexists. split; [by apply getTasks_authenticated |]. simpl. split.
    + rewrite elem_of_find. by intros [Hu _].
    + intros t' Hin. by apply elem_of_find in Hin as [Hu _].
  - by eapply updateTask_not_owner.
  - by eapply deleteTask_not_owner.
Qed.

Lemma ownership_isolation_witness :
  (exists l,
      getTasks (Request.mk (Some alice) Fields.empty "") two_tasks
        = (Returned (mkResponse 200 (JTasks l)), two_tasks) /\
      (bobs_task ∉ l) /\ (forall t', t' ∈ l -> Task.user t' = User.id alice)) /\
  updateTask 20 (Request.mk (Some alice) Fields.empty (Task._id bobs_task)) two_tasks
    = (Returned Unauthorized, two_tasks) /\
  deleteTask (Request.mk (Some alice) Fields.empty (Task._id bobs_task)) two_tasks
    = (Returned Unauthorized, two_tasks).
Proof.
  apply (ownership_isolation two_tasks alice bobs_task Fields.empty "" 20).
  - vm_compute. reflexivity.
  - vm_compute. discriminate.
Defined.

(** ** C2 *)

(** C2 (status enumeration), evaluated where the code departs from it.
    Alice creates "Write spec" and then sends [{ status: "archived" }] for it.
    The value is not in [statusEnum], yet [updateTask] answers 200 with the
    rewritten document and the collection, reached by one create and one
    update, now holds that status: [findByIdAndUpdate] runs no validators,
    unlike [Task.create], whose [validate] refuses the same value. *)
Theorem update_persists_status_outside_enum :
  let create := POST_tasks (Task._id write_spec) 10
                  (Request.mk (Some alice) (Fields.mk None (Some "Write spec") None) "") in
  let update := PUT_task 20
                  (Request.mk (Some alice) (Fields.mk None None (Some "archived"))
                     (Task._id write_spec)) in
  run create ∅ = (Returned (mkResponse 200 (JTask (Some write_spec))), one_task) /\
  run update one_task
    = (Returned (mkResponse 200 (JTask (Some archived))),
       {[ Task._id write_spec := archived ]}) /\
  reachable {[ Task._id write_spec := archived ]} /\
  Task.status archived = "archived" /\
  Task.in_enum "archived" = false /\
  (exists e, Task.validate (Fields.mk (Some (User.id alice)) (Some "Write spec")
                                (Some "archived")) = Some e).
Proof.
  intros create update.
  assert (Hcreate : run create ∅
            = (Returned (mkResponse 200 (JTask (Some write_spec))), one_task))
    by (vm_compute; reflexivity).
  assert (Hupdate : run update one_task
            = (Returned (mkResponse 200 (JTask (Some archived))),
               {[ Task._id write_spec := archived ]}))
    by (vm_compute; reflexivity).
  split; [exact Hcreate |]. split; [exact Hupdate |]. split.
  - change ({[ Task._id write_spec := archived ]} : gmap string Task.doc)
      with ((Returned (mkResponse 200 (JTask (Some archived))),
             ({[ Task._id write_spec := archived ]} : gmap string Task.doc)).2).
    rewrite <- Hupdate. apply reachable_step.
    change one_task
      with ((Returned (mkResponse 200 (JTask (Some write_spec))), one_task).2).
    rewrite <- Hcreate. apply reachable_step, reachable_empty.
  - split; [reflexivity |]. split; [reflexivity |]. eexists. reflexivity.
Qed.

(** ** C3 *)

(** C3, the code against the claim.  Alice owns "Write spec" and sends
    [{ user: <bob's id> }] to [PUT /api/tasks/:id]: the answer is 200 and the
    stored task now belongs to Bob, so the owner recorded at creation has
    been reassigned.  The body goes to [findByIdAndUpdate] as it came, and
    [user] is a path of the schema.  On the way in, [createTask] takes the
    owner from the session and not from the body: the same [user] sent with
    a create is not used. *)
Theorem update_reassigns_owner :
  one_task !! Task._id write_spec = Some write_spec /\
  Task.user write_spec = User.id alice /\
  Express.updateTask 20
    (Request.mk (Some alice) (Fields.mk (Some (User.id bob)) None None)
       (Task._id write_spec)) one_task
    = (Returned (mkResponse 200 (JTask (Some handed_over))),
       {[ Task._id write_spec := handed_over ]}) /\
  Task.user handed_over = User.id bob /\
  Task.user handed_over <> Task.user write_spec /\
  Express.createTask "64b7f0a1c2d3e4f5a6b7c903" 20
    (Request.mk (Some alice) (Fields.mk (Some (User.id bob)) (Some "Buy milk") None) "") ∅
    = (Returned (mkResponse 200 (JTask (Some
         (Task.mk "64b7f0a1c2d3e4f5a6b7c903" (User.id alice) "Buy milk" "todo" 20 20)))),
       {[ "64b7f0a1c2d3e4f5a6b7c903" :=
            Task.mk "64b7f0a1c2d3e4f5a6b7c903" (User.id alice) "Buy milk" "todo" 20 20 ]}) /\
  ~ owner_never_reassigned.
Proof.
  assert (Hrun :
    Express.updateTask 20
      (Request.mk (Some alice) (Fields.mk (Some (User.id bob)) None None)
         (Task._id write_spec)) one_task
      = (Returned (mkResponse 200 (JTask (Some handed_over))),
         {[ Task._id write_spec := handed_over ]})).
  { vm_compute. reflexivity. }
  split; [vm_compute; reflexivity |]. split; [reflexivity |].
  split; [exact Hrun |]. split; [reflexivity |]. split; [discriminate |].
  split; [vm_compute; reflexivity |].
  intros Hclaim.
  destruct (Hclaim one_task _ alice write_spec _ 20%N _ eq_refl eq_refl Hrun)
    as (t' & Hlook & Huser).
  rewrite lookup_singleton_eq in Hlook. injection Hlook as <-. discriminate.
Qed.

(** ** C4 *)

(** C4, counterexample.  A title of three spaces is neither missing nor
    empty, so [createTask] stores it: a task whose title is white space
    only. *)
Lemma create_persists_blank_title :
  createTask "64b7f0a1c2d3e4f5a6b7c903" 20
    (Request.mk (Some alice) (Fields.mk None (Some "   ") None) "") ∅
    = (Returned (mkResponse 200 (JTask (Some blank_task))),
       {[ "64b7f0a1c2d3e4f5a6b7c903" := blank_task ]}) /\
  is_blank (Task.title blank_task) = true.
Proof. split; [vm_compute; reflexivity | reflexivity]. Qed.

(** C4 (create title validation), as the code has it.  With the title
    missing or empty, [createTask] answers 400 "Please add a title" and the
    collection is not touched, whoever asks.  Whatever [createTask] adds to
    the collection carries the title of the request, and that title is not
    the empty string. *)
Theorem create_title_validation
    (db : gmap string Task.doc) (oid : ObjectId) (now : N) (req : Request.t) :
  (no_title req = true ->
   createTask oid now req db = (Returned TitleRequired, db)) /\
  (forall k t,
      db !! k = None ->
      (createTask oid now req db).2 !! k = Some t ->
      Fields.title (Request.body req) = Some (Task.title t) /\
      Task.title t <> "").
Proof.
  split; [apply createTask_no_title |].
  intros k t Hfree.
  destruct (createTask_cases db req oid now)
    as [(r & -> & _) | (u & ttl & _ & Httl & Hne & _ & ->)]; simpl.
  - congruence.
  - destruct (decide (oid = k)) as [-> | Hk].
    + rewrite lookup_insert_eq. by intros [= <-].
    + rewrite lookup_insert_ne by done. congruence.
Qed.

Lemma create_title_validation_witness :
  createTask "64b7f0a1c2d3e4f5a6b7c903" 20
    (Request.mk (Some alice) (Fields.mk None (Some "") None) "") one_task
    = (Returned TitleRequired, one_task) /\
  Task.title blank_task <> "".
Proof.
  split.
  - apply (proj1 (create_title_validation one_task "64b7f0a1c2d3e4f5a6b7c903" 20
             (Request.mk (Some alice) (Fields.mk None (Some "") None) ""))).
    reflexivity.
  - apply (proj2 (create_title_validation ∅ "64b7f0a1c2d3e4f5a6b7c903" 20
             (Request.mk (Some alice) (Fields.mk None (Some "   ") None) ""))
             "64b7f0a1c2d3e4f5a6b7c903" blank_task).
    + vm_compute. reflexivity.
    + vm_compute. reflexivity.
Defined.

(** ** C5 *)

(** C5, counterexample.  Nothing is stored under "abc", and "abc" is no
    ObjectId: [Task.findById] throws on the cast, the [catch] of the handler
    answers 500, for the update and for the delete. *)
Lemma malformed_id_is_internal_error :
  two_tasks !! "abc" = None /\
  Express.updateTask 20 (Request.mk (Some alice) Fields.empty "abc") two_tasks
    = (Returned (InternalError (Mongoose.CastError "abc" "_id")), two_tasks) /\
  Express.deleteTask (Request.mk (Some alice) Fields.empty "abc") two_tasks
    = (Returned (InternalError (Mongoose.CastError "abc" "_id")), two_tasks) /\
  code (InternalError (Mongoose.CastError "abc" "_id")) = 500 /\
  ~ not_found_when_absent.
Proof.
  assert (Hnone : two_tasks !! "abc" = None) by (vm_compute; reflexivity).
  assert (Hrun :
    Express.updateTask 20 (Request.mk (Some alice) Fields.empty "abc") two_tasks
      = (Returned (InternalError (Mongoose.CastError "abc" "_id")), two_tasks)).
  { by apply Express_updateTask_malformed. }
  split; [exact Hnone |]. split; [exact Hrun |].
  split; [by apply Express_deleteTask_malformed |]. split; [reflexivity |].
  intros Hclaim.
  destruct (Hclaim two_tasks (Request.mk (Some alice) Fields.empty "abc") 20%N Hnone)
    as [Hupdate _].
  rewrite Hrun in Hupdate. discriminate.
Qed.

(** C5 (NotFound, and existence before authorization), as the code has it.
    Let the requested identifier be an ObjectId.  When no task is stored
    under it, [updateTask] and [deleteTask] answer 404 "Task not found"
    whoever asks (owner, stranger or nobody) and leave the collection alone.
    In particular, once the owner [u] of a stored task [t] has deleted it,
    every later delete of [t]'s identifier, by anybody and however often
    repeated, answers 404, and so does an update: each attempt is answered,
    none throws. *)
Theorem not_found_for_well_formed_id
    (db : gmap string Task.doc) (req : Request.t) (now : N) (id : ObjectId)
    (db0 : gmap string Task.doc) (t : Task.doc) (u : User.t)
    (first again : Request.t) (n : nat) :
  Mongoose.castObjectId (Request.params_id req) = Some id ->
  db !! id = None ->
  db0 !! Task._id t = Some t ->
  Task.user t = User.id u ->
  Request.user first = Some u ->
  Mongoose.castObjectId (Request.params_id first) = Some (Task._id t) ->
  Mongoose.castObjectId (Request.params_id again) = Some (Task._id t) ->
  (Express.updateTask now req db = (Returned NotFound, db) /\
   Express.deleteTask req db = (Returned NotFound, db)) /\
  (let db' := (Express.deleteTask first db0).2 in
   (Express.deleteTask first db0).1
     = Returned (mkResponse 200 (JId (Request.params_id first))) /\
   DELETE_times n again db' = (replicate n (Returned NotFound), db') /\
   Express.updateTask now again db' = (Returned NotFound, db')).
Proof.
  intros Hid Hnone Hstored Howner Hfirst Hcast Hagain. split.
  - split; [by apply (Express_updateTask_absent _ _ _ id)
           | by apply (Express_deleteTask_absent _ _ id)].
  - rewrite (Express_deleteTask_owner db0 first (Task._id t) t u) by done.
    simpl. split; [done |]. split.
    + induction n as [| n IH]; simpl; [done |].
      rewrite (Express_deleteTask_absent _ _ (Task._id t))
        by (try done; apply lookup_delete_eq).
      by rewrite IH.
    + apply (Express_updateTask_absent _ _ _ (Task._id t)); [done |].
      apply lookup_delete_eq.
Qed.

Lemma not_found_for_well_formed_id_witness :
  (Express.updateTask 20 (Request.mk None Fields.empty "64b7f0a1c2d3e4f5a6b7c999") two_tasks
     = (Returned NotFound, two_tasks) /\
   Express.deleteTask (Request.mk None Fields.empty "64b7f0a1c2d3e4f5a6b7c999") two_tasks
     = (Returned NotFound, two_tasks)) /\
  (let first := Request.mk (Some alice) Fields.empty (Task._id write_spec) in
   let again := Request.mk (Some bob) Fields.empty "64B7F0A1C2D3E4F5A6B7C901" in
   let db' := (Express.deleteTask first two_tasks).2 in
   (Express.deleteTask first two_tasks).1
     = Returned (mkResponse 200 (JId (Task._id write_spec))) /\
   DELETE_times 3 again db' = (replicate 3 (Returned NotFound), db') /\
   Express.updateTask 20 again db' = (Returned NotFound, db')).
Proof.
  apply (not_found_for_well_formed_id two_tasks
           (Request.mk None Fields.empty "64b7f0a1c2d3e4f5a6b7c999") 20
           "64b7f0a1c2d3e4f5a6b7c999"
           two_tasks write_spec alice
           (Request.mk (Some alice) Fields.empty (Task._id write_spec))
           (Request.mk (Some bob) Fields.empty "64B7F0A1C2D3E4F5A6B7C901") 3).
  - vm_compute. reflexivity.
  - vm_compute. reflexivity.
  - vm_compute. reflexivity.
  - reflexivity.
  - reflexivity.
  - vm_compute. reflexivity.
  - vm_compute. reflexivity.
Defined.

(** ** C6 *)

(** C6 (create postcondition and round trip).  For an acting user [u], a
    non-empty title and a free generated identifier, [createTask] answers 200
    with the new document and stores it; the document is owned by [u], has
    status "todo" and carries the title.  If the collection held no task of
    [u] before, the [getTasks] that follows answers exactly that one task. *)
Theorem create_postcondition
    (db : gmap string Task.doc) (u : User.t) (body body' : Fields.t)
    (ttl id id' : string) (oid : ObjectId) (now : N) :
  Fields.title body = Some ttl ->
  ttl <> "" ->
  db !! oid = None ->
  let t := Task.mk oid (User.id u) ttl "todo" now now in
  let db' := <[oid := t]> db in
  createTask oid now (Request.mk (Some u) body id) db
    = (Returned (mkResponse 200 (JTask (Some t))), db') /\
  db' !! oid = Some t /\
  Task.user t = User.id u /\ Task.status t = "todo" /\ Task.title t = ttl /\
  ((forall k t', db !! k = Some t' -> Task.user t' <> User.id u) ->
   getTasks (Request.mk (Some u) body' id') db'
     = (Returned (mkResponse 200 (JTasks [t])), db')).
Proof.
  intros Httl Hne Hfresh t db'. repeat split.
  - by apply createTask_fresh.
  - apply lookup_insert_eq.
  - intros Hnone. rewrite (getTasks_authenticated _ _ u) by done.
    unfold db'. by rewrite find_after_first_insert.
Qed.

Lemma create_postcondition_witness :
  let db := {[ Task._id bobs_task := bobs_task ]} : gmap string Task.doc in
  let oid := "64b7f0a1c2d3e4f5a6b7c903" in
  let t := Task.mk oid (User.id alice) "Buy milk" "todo" 20 20 in
  createTask oid 20 (Request.mk (Some alice) (Fields.mk None (Some "Buy milk") None) "") db
    = (Returned (mkResponse 200 (JTask (Some t))), <[oid := t]> db) /\
  getTasks (Request.mk (Some alice) Fields.empty "") (<[oid := t]> db)
    = (Returned (mkResponse 200 (JTasks [t])), <[oid := t]> db).
Proof.
  pose proof (create_postcondition
                ({[ Task._id bobs_task := bobs_task ]})
                alice (Fields.mk None (Some "Buy milk") None) Fields.empty
                "Buy milk" "" "" "64b7f0a1c2d3e4f5a6b7c903" 20) as H.
  destruct H as (Hcreate & _ & _ & _ & _ & Hlist).
  - reflexivity.
  - discriminate.
  - vm_compute. reflexivity.
  - split; [exact Hcreate |]. apply Hlist.
    intros k t' Hk. apply lookup_singleton_Some in Hk as [_ <-]. discriminate.
Defined.

(** ** C7 *)

(** C7, counterexample.  Where the mock and the server part ways:
    - both stores empty, the user lists the tasks: the server answers the
      empty list, the mock seeds its array with three demo tasks and returns
      those;
    - a task is created with an empty title: the mock stores and returns it,
      the server answers 400;
    - a task is created: the mock names it by the clock, the server by
      ObjectId;
    - two tasks are created within a millisecond: the mock gives both the
      same name, and a delete of that name removes both, where the server
      has two tasks under two names and removes one;
    - a delete names no task: the mock acknowledges it, the server answers
      404;
    - Bob signs in on the browser that Alice has used: the mock lists
      Alice's task for him, the server lists nothing. *)
Lemma mock_departs_from_server :
  ((taskService.getAll (demo alice_env) empty_world).1
     = Returned (MockTasks MockBackend.seed) /\
   (taskService.getAll (live alice_env) empty_world).1
     = Returned (Remote (JTasks []))) /\
  ((taskService.create (demo alice_env) "" empty_world).1
     = Returned (MockTask (MockBackend.mk "1700000000000" "" "todo")) /\
   (taskService.create (live alice_env) "" empty_world).1
     = Thrown (AxiosError 400 "Request failed with status code 400")) /\
  ((taskService.create (demo alice_env) "Buy milk" empty_world).1
     = Returned (MockTask (MockBackend.mk "1700000000000" "Buy milk" "todo")) /\
   (taskService.create (live alice_env) "Buy milk" empty_world).1
     = Returned (Remote (JTask (Some
         (Task.mk "64b7f0a1c2d3e4f5a6b7c904" (User.id alice) "Buy milk" "todo"
            1700000000000 1700000000000))))) /\
  (mock_tasks cat_world
     = Some [MockBackend.mk "1700000000000" "Buy milk" "todo";
             MockBackend.mk "1700000000000" "Feed cat" "todo"] /\
   mock_tasks (taskService.delete (demo alice_env) "1700000000000" cat_world).2
     = Some [] /\
   size (collection cat_world) = 2 /\
   size (collection
           (taskService.delete (live alice_env) "64b7f0a1c2d3e4f5a6b7c904" cat_world).2)
     = 1) /\
  ((taskService.delete (demo alice_env) "1699999999999" milk_world).1
     = Returned (MockAck MockBackend.success) /\
   (taskService.delete (live alice_env) "64b7f0a1c2d3e4f5a6b7c999" milk_world).1
     = Thrown (AxiosError 404 "Request failed with status code 404")) /\
  ((taskService.getAll (demo bob_env) milk_world).1
     = Returned (MockTasks [MockBackend.mk "1700000000000" "Buy milk" "todo"]) /\
   (taskService.getAll (live bob_env) milk_world).1
     = Returned (Remote (JTasks []))) /\
  ~ mock_matches_server.
Proof.
  split; [split; vm_compute; reflexivity |].
  split; [split; vm_compute; reflexivity |].
  split; [split; vm_compute; reflexivity |].
  split; [repeat split; vm_compute; reflexivity |].
  split; [split; vm_compute; reflexivity |].
  split; [split; vm_compute; reflexivity |].
  intros Hclaim.
  destruct (Hclaim alice_env empty_world alice (fun m => m) "" "" "") as (Hlist & _).
  - reflexivity.
  - split; [vm_compute; reflexivity |]. split.
    + intros k t Hk. simpl in Hk. by rewrite lookup_empty in Hk.
    + apply corresponds_empty.
  - vm_compute in Hlist. inversion Hlist as [| l docs Hperm | |].
    by apply Permutation_nil_r in Hperm.
Qed.

(** C7 (mock against server), as the code has it.  Let the two stores be in
    step for the signed-in user [u]: under the server's names, the mock's
    array holds the documents of [u], reduced to [_id], [title] and [status].
    Then, in demo mode and against the server, a task being called by its
    name on either side:
    - listing a non-empty array returns the same tasks, up to order;
    - a status update of a task of the array returns the same task;
    - a status update fails on both sides when the array has no task of
      that name and [u] has no task under the ObjectId;
    - creating a task with a non-empty title, the clock's name being new to
      the array and the generated ObjectId free, returns the same task, and
      the new name stands for the new ObjectId;
    - deleting a task of the array is acknowledged on both sides;
    and after each of these calls, and after a delete that names no task of
    [u], the two stores are in step again. *)
Theorem mock_simulates_server
    (env : Env) (w : World) (u : User.t) (names : string -> string) :
  session env = Some u ->
  in_step names u w ->
  let ids := MockBackend._id <$> MockBackend.read (mock_tasks w) in
  (MockBackend.read (mock_tasks w) <> [] ->
   same_result (rename_outcome names (taskService.getAll (demo env) w).1)
               (taskService.getAll (live env) w).1 /\
   still_in_step names u (taskService.getAll (demo env) w).2
                         (taskService.getAll (live env) w).2) /\
  (forall m status,
      m ∈ ids ->
      same_result (rename_outcome names (taskService.update (demo env) m status w).1)
                  (taskService.update (live env) (names m) status w).1 /\
      still_in_step names u (taskService.update (demo env) m status w).2
                            (taskService.update (live env) (names m) status w).2) /\
  (forall m id k status,
      m ∉ ids ->
      Mongoose.castObjectId id = Some k ->
      (forall t, collection w !! k = Some t -> Task.user t <> User.id u) ->
      same_result (rename_outcome names (taskService.update (demo env) m status w).1)
                  (taskService.update (live env) id status w).1 /\
      still_in_step names u (taskService.update (demo env) m status w).2
                            (taskService.update (live env) id status w).2) /\
  (forall title,
      title <> "" ->
      pretty (clock env) ∉ ids ->
      canonical (generated env) ->
      collection w !! generated env = None ->
      let names' := extend names (pretty (clock env)) (generated env) in
      same_result (rename_outcome names' (taskService.create (demo env) title w).1)
                  (taskService.create (live env) title w).1 /\
      still_in_step names' u (taskService.create (demo env) title w).2
                             (taskService.create (live env) title w).2) /\
  (forall m,
      m ∈ ids ->
      same_result (rename_outcome names (taskService.delete (demo env) m w).1)
                  (taskService.delete (live env) (names m) w).1 /\
      still_in_step names u (taskService.delete (demo env) m w).2
                            (taskService.delete (live env) (names m) w).2) /\
  (forall m id k,
      m ∉ ids ->
      Mongoose.castObjectId id = Some k ->
      (forall t, collection w !! k = Some t -> Task.user t <> User.id u) ->
      still_in_step names u (taskService.delete (demo env) m w).2
                            (taskService.delete (live env) id w).2).
Proof.
  intros Hsession (Hcan & Hkeys & Hcorr) ids. unfold ids. clear ids.
  destruct w as [ls db]. cbn [mock_tasks collection] in *.
  unfold still_in_step, in_step.
  split; [| split; [| split; [| split; [| split]]]].
  - intros Hne.
    rewrite demo_getAll_nonempty, (live_getAll env ls db u Hsession) by done.
    simpl. split; [| done]. constructor. by apply corresponds_list.
  - intros m status Hm.
    apply list_elem_of_fmap in Hm as (y0 & -> & Hy0).
    destruct (list_find_elem_of (fun x => MockBackend._id x = MockBackend._id y0)
                (MockBackend.read ls) y0 Hy0 eq_refl) as [[i y] Hfind].
    rewrite (demo_update_found env ls db _ status i y Hfind).
    apply list_find_Some in Hfind as (Hi & Hid & _).
    assert (Hy : rename names y ∈ rename names <$> MockBackend.read ls).
    { apply list_elem_of_fmap. exists y. split; [done |].
      by eapply list_elem_of_lookup_2. }
    apply (corresponds_member u _ db Hcorr) in Hy as (t & Hk & Hu & Hv).
    simpl in Hk. rewrite Hid in Hk.
    rewrite (live_update_owner env ls db u Hsession _
               (names (MockBackend._id y0)) status t) by (try done; by eapply Hkeys).
    cbn [fst snd mock_tasks collection MockBackend.read from_option id rename_outcome].
    rewrite rename_spread, <- Hv.
    rewrite <- view_applyUpdate with (now := clock env).
    split; [constructor |]. split; [done |]. split.
    + intros k t' Hk'. destruct (decide (names (MockBackend._id y0) = k)) as [<- | Hne].
      * by eapply Hkeys.
      * rewrite lookup_insert_ne in Hk' by done. by eapply Hkeys.
    + rewrite list_fmap_insert, rename_spread, <- Hv.
      apply corresponds_update; try done.
      rewrite list_lookup_fmap, Hi. simpl. by rewrite Hv.
  - intros m id k status Hm Hid Hnot.
    rewrite demo_update_missing.
    2:{ apply list_find_None, Forall_forall. intros x Hx Heq. apply Hm.
        apply list_elem_of_fmap. by exists x. }
    assert (Hnone : forall k' t, Mongoose.castObjectId id = Some k' ->
                                 db !! k' = Some t -> Task.user t <> User.id u).
    { intros k' t Hid' Hk'. rewrite Hid in Hid'. injection Hid' as <-. by apply Hnot. }
    destruct (live_update_refused env ls db u Hsession id status Hnone) as (st & _ & ->).
    simpl. split; [constructor | done].
  - intros title Hne Hfresh Hgen Hfree.
    set (names' := extend names (pretty (clock env)) (generated env)).
    rewrite demo_create, (live_create env ls db u Hsession title) by done.
    cbn [fst snd mock_tasks collection MockBackend.read from_option id rename_outcome].
    set (t := Task.mk (generated env) (User.id u) title "todo" (clock env) (clock env)).
    assert (Hnew : rename names' (MockBackend.mk (pretty (clock env)) title "todo")
                   = view t).
    { unfold rename, names'. simpl. by rewrite extend_same. }
    rewrite Hnew. split; [constructor |]. split; [done |]. split.
    + intros k t' Hk'. destruct (decide (generated env = k)) as [<- | Hneq]; [done |].
      rewrite lookup_insert_ne in Hk' by done. by eapply Hkeys.
    + rewrite fmap_app. simpl. rewrite Hnew. unfold names'.
      rewrite rename_extend by done. by apply corresponds_create.
  - intros m Hm. rewrite demo_delete.
    pose proof Hm as Hm'.
    apply list_elem_of_fmap in Hm' as (y & -> & Hy).
    assert (Hy' : rename names y ∈ rename names <$> MockBackend.read ls).
    { apply list_elem_of_fmap. by exists y. }
    apply (corresponds_member u _ db Hcorr) in Hy' as (t & Hk & Hu & Hv).
    simpl in Hk.
    rewrite (live_delete_owner env ls db u Hsession _
               (names (MockBackend._id y)) t) by (try done; by eapply Hkeys).
    cbn [fst snd mock_tasks collection MockBackend.read from_option id rename_outcome].
    split; [constructor |]. split; [done |]. split.
    + intros k t' Hk'. apply lookup_delete_Some in Hk' as [_ Hk']. by eapply Hkeys.
    + destruct Hcorr as (Hkey & Hnodup & Hmem).
      rewrite (Hkey _ t Hk), rename_filter by done.
      by apply corresponds_delete.
  - intros m id' k Hm Hid Hnot. rewrite demo_delete.
    assert (Hnone : forall k' t, Mongoose.castObjectId id' = Some k' ->
                                 db !! k' = Some t -> Task.user t <> User.id u).
    { intros k' t Hid' Hk'. rewrite Hid in Hid'. injection Hid' as <-. by apply Hnot. }
    destruct (live_delete_refused env ls db u Hsession id' Hnone) as (st & _ & ->).
    cbn [fst snd mock_tasks collection MockBackend.read from_option id].
    rewrite filter_absent_id by done. done.
Qed.

Lemma mock_simulates_server_witness :
  same_result (rename_outcome milk_names
                 (taskService.create (demo alice_env) "Buy milk" empty_world).1)
              (taskService.create (live alice_env) "Buy milk" empty_world).1 /\
  same_result (rename_outcome milk_names
                 (taskService.update (demo alice_env_later) "1700000000000" "done"
                    milk_world).1)
              (taskService.update (live alice_env_later) "64b7f0a1c2d3e4f5a6b7c904" "done"
                 milk_world).1 /\
  same_result (rename_outcome milk_names
                 (taskService.getAll (demo alice_env_later) milk_world).1)
              (taskService.getAll (live alice_env_later) milk_world).1.
Proof.
  assert (Hstart : in_step (fun m => m) alice empty_world).
  { split; [vm_compute; reflexivity |]. split.
    - intros k t Hk. simpl in Hk. by rewrite lookup_empty in Hk.
    - apply corresponds_empty. }
  pose proof (mock_simulates_server alice_env empty_world alice (fun m => m) eq_refl
                Hstart) as (_ & _ & _ & Hcreate & _).
  destruct (Hcreate "Buy milk") as [Hsame Hstill].
  - discriminate.
  - simpl. apply not_elem_of_nil.
  - vm_compute. reflexivity.
  - vm_compute. reflexivity.
  - pose proof (mock_simulates_server alice_env_later milk_world alice milk_names
                  eq_refl Hstill) as (Hlist & Hupdate & _).
    split; [exact Hsame |]. split.
    + apply (Hupdate "1700000000000" "done").
      apply (bool_decide_unpack _). vm_compute. exact I.
    + apply Hlist. vm_compute. discriminate.
Defined.

(** ** C8 *)

(** C8, counterexample.  In demo mode the user changes the status of a task
    that the store no longer has.  [MockBackend.updateTask] throws "Task not
    found"; the handler writes it to the console and sets no state, so the
    screen is exactly what it was: nothing tells the user. *)
Lemma failed_update_not_surfaced :
  handleUpdateStatus MockBackend._id (demo_service 20) "4" "done"
    demo_dashboard (Some MockBackend.seed)
    = (mkDashboard MockBackend.seed false "" "all" [Error "Task not found"],
       Some MockBackend.seed) /\
  render MockBackend.status
      (mkDashboard MockBackend.seed false "" "all" [Error "Task not found"])
    = render MockBackend.status demo_dashboard /\
  ~ failed_update_is_surfaced.
Proof.
  assert (Hrun :
    handleUpdateStatus MockBackend._id (demo_service 20) "4" "done"
      demo_dashboard (Some MockBackend.seed)
      = (mkDashboard MockBackend.seed false "" "all" [Error "Task not found"],
         Some MockBackend.seed)) by reflexivity.
  split; [exact Hrun |]. split; [reflexivity |].
  intros Hclaim.
  destruct (Hclaim _ _ _ MockBackend._id MockBackend.status (demo_service 20)
              "4" "done" demo_dashboard (Some MockBackend.seed)
              (Some MockBackend.seed) (Error "Task not found") eq_refl)
    as [Hshown _].
  apply Hshown. rewrite Hrun. reflexivity.
Qed.

(** C8 (client failure atomicity), as the code has it.  When the call of the
    service throws, each handler of the [Dashboard] writes the error to the
    console and sets no task state.  After a failed add, status update or
    delete every piece of component state is what it was, and so is the
    screen; after a failed fetch the tasks are what they were and only the
    loading flag is cleared.  The world is left as the failed call left it. *)
Theorem failed_operation_keeps_local_state
    (W Item Ack : Type) (item_id item_status : Item -> string)
    (service : Service.t W Item Ack) (id status : string)
    (d : Dashboard Item) (w w' : W) (err : Exn) :
  (Service.update service id status w = (Thrown err, w') ->
   handleUpdateStatus item_id service id status d w = (console_error err d, w')) /\
  (Service.delete service id w = (Thrown err, w') ->
   handleDelete item_id service true id d w = (console_error err d, w')) /\
  (Service.create service (newTaskTitle d) w = (Thrown err, w') ->
   is_blank (newTaskTitle d) = false ->
   handleAddTask service d w = (console_error err d, w')) /\
  (Service.getAll service w = (Thrown err, w') ->
   fetchTasks service d w = (setLoading false (console_error err d), w')) /\
  tasks (console_error err d) = tasks d /\
  loading (console_error err d) = loading d /\
  newTaskTitle (console_error err d) = newTaskTitle d /\
  filter_ (console_error err d) = filter_ d /\
  console (console_error err d) = console d ++ [err] /\
  render item_status (console_error err d) = render item_status d /\
  tasks (setLoading false (console_error err d)) = tasks d.
Proof.
  repeat split.
  - intros Hfail. unfold handleUpdateStatus. by rewrite Hfail.
  - intros Hfail. unfold handleDelete. simpl. by rewrite Hfail.
  - intros Hfail Hblank. unfold handleAddTask. by rewrite Hblank, Hfail.
  - intros Hfail. unfold fetchTasks. by rewrite Hfail.
Qed.

Lemma failed_operation_keeps_local_state_witness :
  handleUpdateStatus MockBackend._id (demo_service 20) "4" "done"
    demo_dashboard (Some MockBackend.seed)
    = (console_error (Error "Task not found") demo_dashboard, Some MockBackend.seed) /\
  handleDelete MockBackend._id offline_service true "1" typing_dashboard tt
    = (console_error (AxiosError 0 "Network Error") typing_dashboard, tt) /\
  handleAddTask offline_service typing_dashboard tt
    = (console_error (AxiosError 0 "Network Error") typing_dashboard, tt) /\
  fetchTasks offline_service typing_dashboard tt
    = (setLoading false (console_error (AxiosError 0 "Network Error") typing_dashboard), tt).
Proof.
  split.
  { apply (proj1 (failed_operation_keeps_local_state _ _ _
                    MockBackend._id MockBackend.status (demo_service 20) "4" "done"
                    demo_dashboard (Some MockBackend.seed) (Some MockBackend.seed)
                    (Error "Task not found"))).
    reflexivity. }
  pose proof (failed_operation_keeps_local_state _ _ _
                MockBackend._id MockBackend.status offline_service "1" "done"
                typing_dashboard tt tt (AxiosError 0 "Network Error"))
    as (_ & Hdelete & Hadd & Hfetch & _).
  split; [apply Hdelete; reflexivity |].
  split; [apply Hadd; reflexivity | apply Hfetch; reflexivity].
Defined.

(** ** C9 *)

(** C9 (delete success).  When the acting user [u] owns the stored task [t],
    [deleteTask] answers 200 with [{ id }] for [t]'s identifier and the
    collection afterwards is the old one without that key: the document is
    gone for good (a later [findById] finds nothing, a later update or delete
    answers 404) and every other document is untouched. *)
Theorem delete_success
    (db : gmap string Task.doc) (u : User.t) (t : Task.doc)
    (body : Fields.t) (who : option User.t) (now : N) :
  db !! Task._id t = Some t ->
  Task.user t = User.id u ->
  let db' := delete (Task._id t) db in
  let again := Request.mk who body (Task._id t) in
  deleteTask (Request.mk (Some u) body (Task._id t)) db
    = (Returned (mkResponse 200 (JId (Task._id t))), db') /\
  db' !! Task._id t = None /\
  Task.findById (Task._id t) db' = (Returned None, db') /\
  updateTask now again db' = (Returned NotFound, db') /\
  deleteTask again db' = (Returned NotFound, db') /\
  (forall k, k <> Task._id t -> db' !! k = db !! k).
Proof.
  intros Hstored Howner db' again.
  assert (Hgone : db' !! Task._id t = None) by apply lookup_delete_eq.
  repeat split.
  - by rewrite (deleteTask_owner db (Request.mk (Some u) body (Task._id t)) t u).
  - done.
  - unfold Task.findById. by rewrite Hgone.
  - by apply updateTask_absent.
  - by apply deleteTask_absent.
  - intros k Hk. by apply lookup_delete_ne.
Qed.

Lemma delete_success_witness :
  let db' := delete (Task._id write_spec) two_tasks in
  let again := Request.mk (Some bob) Fields.empty (Task._id write_spec) in
  deleteTask (Request.mk (Some alice) Fields.empty (Task._id write_spec)) two_tasks
    = (Returned (mkResponse 200 (JId (Task._id write_spec))), db') /\
  db' !! Task._id write_spec = None /\
  Task.findById (Task._id write_spec) db' = (Returned None, db') /\
  updateTask 20 again db' = (Returned NotFound, db') /\
  deleteTask again db' = (Returned NotFound, db') /\
  (forall k, k <> Task._id write_spec -> db' !! k = two_tasks !! k).
Proof.
  apply (delete_success two_tasks alice write_spec Fields.empty (Some bob) 20).
  - vm_compute. reflexivity.
  - reflexivity.
Defined.

(** ** C10 *)




(* ================================================================= *)
(** * Further properties *)

(** ** Helpers *)




Lemma two_tasks_reachable : reachable two_tasks.
Proof.
  replace two_tasks with
    (run (PUT_task 12 (Request.mk (Some bob) (Fields.mk None None (Some "in-progress"))
                         (Task._id bobs_task)))
       (run (POST_tasks (Task._id bobs_task) 11
               (Request.mk (Some bob) (Fields.mk None (Some "Pay rent") None) ""))
          (run (POST_tasks (Task._id write_spec) 10
                  (Request.mk (Some alice) (Fields.mk None (Some "Write spec") None) ""))
             ∅).2).2).2
    by (vm_compute; reflexivity).
  do 3 apply reachable_step. apply reachable_empty.
Qed.

(** ** The API *)


(** X2.  Whoever asks, signed in or not, owner or not, an update or a delete
    is answered with 404 exactly when the identifier is an ObjectId, in
    either case of its digits, under which no task is stored; an identifier
    that is no ObjectId is answered with 500.  So the answer tells any caller
    whether an ObjectId is in use. *)
Theorem not_found_exactly_when_absent
    (db : gmap string Task.doc) (req : Request.t) (now : N) :
  (replied (PUT_task now req) db = 404 <->
   exists id, Mongoose.castObjectId (Request.params_id req) = Some id /\ db !! id = None) /\
  (replied (DELETE_task req) db = 404 <->
   exists id, Mongoose.castObjectId (Request.params_id req) = Some id /\ db !! id = None) /\
  (Mongoose.castObjectId (Request.params_id req) = None ->
   replied (PUT_task now req) db = 500 /\ replied (DELETE_task req) db = 500).
Proof.
  unfold replied. simpl. split; [| split].
  - destruct (Mongoose.castObjectId (Request.params_id req)) as [id |] eqn:Hid.
    + destruct (db !! id) as [t |] eqn:Hk.
      * split; [| intros (id' & [= <-] & Hnone); congruence].
        destruct (Express_updateTask_cases db req now)
          as [(r & Hrun & Hcode) | (id' & upd & t' & u & _ & _ & _ & _ & _ & Hrun)];
          rewrite Hrun; simpl; [| done].
        intros H404. exfalso.
        destruct (Request.user req) as [u |] eqn:Huser.
        -- destruct (decide (Task.user t = User.id u)) as [Heq | Hne].
           ++ destruct (Mongoose.castFields (Request.body req)) as [upd |] eqn:Hupd.
              ** rewrite (Express_updateTask_cast db req now id upd) in Hrun by done.
                 rewrite (updateTask_owner db _ now t u) in Hrun by done.
                 injection Hrun as <- _. done.
              ** rewrite (Express_updateTask_bad_owner db req now id t u) in Hrun
                   by done.
                 injection Hrun as <-. done.
           ++ rewrite (Express_updateTask_refused db req now id) in Hrun
                by (try done; congruence).
              rewrite (updateTask_not_owner db _ now t u) in Hrun by done.
              injection Hrun as <-. done.
        -- rewrite (Express_updateTask_refused db req now id) in Hrun
             by (try done; congruence).
           rewrite (updateTask_unauthenticated db _ now t) in Hrun by done.
           injection Hrun as <-. done.
      * rewrite (Express_updateTask_absent db req now id) by done. simpl.
        split; [by exists id | done].
    + rewrite Express_updateTask_malformed by done. simpl.
      split; [done | by intros (id & [=] & _)].
  - destruct (Mongoose.castObjectId (Request.params_id req)) as [id |] eqn:Hid.
    + destruct (db !! id) as [t |] eqn:Hk.
      * split; [| intros (id' & [= <-] & Hnone); congruence].
        destruct (Express_deleteTask_cases db req)
          as [(r & Hrun & Hcode) | (id' & t' & u & _ & _ & _ & _ & Hrun)];
          rewrite Hrun; simpl; [| done].
        intros H404. exfalso.
        destruct (Express_deleteTask_cast db req id Hid) as [_ Hsame].
        destruct (Request.user req) as [u |] eqn:Huser.
        -- destruct (decide (Task.user t = User.id u)) as [Heq | Hne].
           ++ rewrite (Express_deleteTask_owner db req id t u) in Hrun by done.
              injection Hrun as <- _. done.
           ++ destruct (Hsame Unauthorized) as (r' & Hr' & Hc & _).
              { by rewrite (deleteTask_not_owner db _ t u). }
              rewrite Hrun in Hr'. simpl in Hr'. injection Hr' as <-.
              rewrite Hc in H404. done.
        -- destruct (Hsame Unauthenticated) as (r' & Hr' & Hc & _).
           { by rewrite (deleteTask_unauthenticated db _ t). }
           rewrite Hrun in Hr'. simpl in Hr'. injection Hr' as <-.
           rewrite Hc in H404. done.
      * rewrite (Express_deleteTask_absent db req id) by done. simpl.
        split; [by exists id | done].
    + rewrite Express_deleteTask_malformed by done. simpl.
      split; [done | by intros (id & [=] & _)].
  - intros Hnone.
    by rewrite Express_updateTask_malformed, Express_deleteTask_malformed.
Qed.

Lemma not_found_exactly_when_absent_witness :
  replied (PUT_task 20 (Request.mk None Fields.empty "64B7F0A1C2D3E4F5A6B7C999"))
    two_tasks = 404 /\
  replied (DELETE_task (Request.mk (Some alice) Fields.empty "abc")) two_tasks = 500.
Proof.
  split.
  - apply (proj1 (not_found_exactly_when_absent two_tasks
                    (Request.mk None Fields.empty "64B7F0A1C2D3E4F5A6B7C999") 20)).
    exists "64b7f0a1c2d3e4f5a6b7c999". split; vm_compute; reflexivity.
  - apply (proj2 (proj2 (not_found_exactly_when_absent two_tasks
                           (Request.mk (Some alice) Fields.empty "abc") 20))).
    vm_compute. reflexivity.
Defined.

(** X3.  What [getTasks] answers to a signed-in user, on a collection that
    requests have led to: the stored documents of that user, all of them and
    each once, and the collection is not touched. *)
Theorem getTasks_lists_own_tasks
    (db : gmap string Task.doc) (req : Request.t) (u : User.t) :
  reachable db ->
  Request.user req = Some u ->
  getTasks req db
    = (Returned (mkResponse 200 (JTasks (tasks_of (User.id u) db))), db) /\
  NoDup (tasks_of (User.id u) db) /\
  (forall t, t ∈ tasks_of (User.id u) db <->
             Task.user t = User.id u /\ db !! Task._id t = Some t) /\
  length (tasks_of (User.id u) db) <= size db.
Proof.
  intros Hreach Huser. pose proof (reachable_well_keyed db Hreach) as Hkey.
  split; [by apply getTasks_authenticated |]. split; [| split].
  - unfold tasks_of. apply (NoDup_fmap_1 Task._id).
    rewrite <- list_fmap_compose.
    erewrite list_fmap_ext; [apply NoDup_fst_map_to_list |].
    intros i [k t] Hi. simpl.
    apply list_elem_of_lookup_2, elem_of_map_to_list in Hi.
    apply map_lookup_filter_Some in Hi as [Hk _]. by apply Hkey.
  - intros t. unfold tasks_of. rewrite elem_of_find. split.
    + intros (Hu & k & Hk). split; [done |]. by rewrite (Hkey k t Hk).
    + intros (Hu & Hk). eauto.
  - unfold tasks_of. rewrite length_fmap, length_map_to_list.
    apply map_subseteq_size, map_filter_subseteq.
Qed.

Lemma getTasks_lists_own_tasks_witness :
  getTasks (Request.mk (Some alice) Fields.empty "") two_tasks
    = (Returned (mkResponse 200 (JTasks (tasks_of (User.id alice) two_tasks))),
       two_tasks) /\
  NoDup (tasks_of (User.id alice) two_tasks).
Proof.
  pose proof (getTasks_lists_own_tasks two_tasks
                (Request.mk (Some alice) Fields.empty "") alice
                two_tasks_reachable eq_refl) as (Hrun & Hnodup & _).
  split; [exact Hrun | exact Hnodup].
Defined.





(** The list of an owner when one of their documents is put under a key. *)
Lemma tasks_of_insert_own
    (db : gmap string Task.doc) (owner k : string) (t : Task.doc) :
  Task.user t = owner ->
  tasks_of owner (<[k := t]> db) ≡ₚ t :: tasks_of owner (delete k db).
Proof.
  intros Hown. unfold tasks_of.
  rewrite <- (insert_delete_eq db), map_filter_insert_True by done.
  rewrite map_to_list_insert; [done |].
  apply map_lookup_filter_None. left. apply lookup_delete_eq.
Qed.

(** The list of an owner, split at one of their stored documents. *)
Lemma tasks_of_delete_own
    (db : gmap string Task.doc) (owner k : string) (t : Task.doc) :
  db !! k = Some t -> Task.user t = owner ->
  tasks_of owner db ≡ₚ t :: tasks_of owner (delete k db).
Proof.
  intros Hk Hown. unfold tasks_of. rewrite map_filter_delete.
  rewrite <- (map_to_list_delete (filter _ db) k t); [done |].
  by apply map_lookup_filter_Some.
Qed.

(** The list of an owner does not see a key that holds nothing of theirs. *)
Lemma tasks_of_delete_other
    (db : gmap string Task.doc) (owner k : string) :
  (forall t, db !! k = Some t -> Task.user t <> owner) ->
  tasks_of owner (delete k db) = tasks_of owner db.
Proof.
  intros Hnot. unfold tasks_of. f_equal. f_equal.
  apply map_filter_delete_not. intros t Hk. simpl. by apply Hnot.
Qed.

(** X6.  A create answered with 200 adds the new task, and nothing else, to
    the list of the user who made it. *)
Theorem list_after_create
    (db : gmap string Task.doc) (u : User.t) (body : Fields.t)
    (ttl id : string) (oid : ObjectId) (now : N) :
  Fields.title body = Some ttl ->
  ttl <> "" ->
  db !! oid = None ->
  let t := Task.mk oid (User.id u) ttl "todo" now now in
  let c := POST_tasks oid now (Request.mk (Some u) body id) in
  answered c db = 200 /\
  tasks_of (User.id u) (run c db).2 ≡ₚ t :: tasks_of (User.id u) db.
Proof.
  intros Httl Hne Hfresh t c. unfold answered, c. simpl.
  rewrite (createTask_fresh db _ oid now u ttl) by done. simpl.
  split; [done |].
  rewrite tasks_of_insert_own by done. by rewrite delete_id.
Qed.

Lemma list_after_create_witness :
  tasks_of (User.id alice)
    (run (POST_tasks "64b7f0a1c2d3e4f5a6b7c903" 20
            (Request.mk (Some alice) (Fields.mk None (Some "Buy milk") None) ""))
       two_tasks).2
  ≡ₚ Task.mk "64b7f0a1c2d3e4f5a6b7c903" (User.id alice) "Buy milk" "todo" 20 20
       :: tasks_of (User.id alice) two_tasks.
Proof.
  apply (list_after_create two_tasks alice (Fields.mk None (Some "Buy milk") None)
           "Buy milk" "" "64b7f0a1c2d3e4f5a6b7c903" 20).
  - reflexivity.
  - discriminate.
  - vm_compute. reflexivity.
Defined.

(** X7.  An update by the owner whose body is a flat object with a title, a
    status, both or neither, and no [user], replaces the task in the owner's
    list by its updated version and leaves the rest of the list as it
    was. *)
Theorem list_after_update
    (db : gmap string Task.doc) (u : User.t) (t : Task.doc)
    (body : Fields.t) (id : string) (now : N) :
  Mongoose.castObjectId id = Some (Task._id t) ->
  db !! Task._id t = Some t ->
  Task.user t = User.id u ->
  Fields.user body = None ->
  let c := PUT_task now (Request.mk (Some u) body id) in
  let rest := tasks_of (User.id u) (delete (Task._id t) db) in
  replied c db = 200 /\
  tasks_of (User.id u) db ≡ₚ t :: rest /\
  tasks_of (User.id u) (serve c db).2 ≡ₚ Task.applyUpdate body now t :: rest.
Proof.
  intros Hid Hk Hown Hbody c rest. unfold replied, c. simpl.
  rewrite (Express_updateTask_cast db _ now (Task._id t) body).
  2: done.
  2:{ unfold Mongoose.castFields. simpl. by rewrite Hbody. }
  rewrite (updateTask_owner db _ now t u) by done. simpl.
  split; [done |]. split.
  - by apply tasks_of_delete_own.
  - apply tasks_of_insert_own. simpl. by rewrite Hbody.
Qed.

Lemma list_after_update_witness :
  tasks_of (User.id alice)
    (serve (PUT_task 20 (Request.mk (Some alice) (Fields.mk None None (Some "done"))
                           "64B7F0A1C2D3E4F5A6B7C901")) two_tasks).2
  ≡ₚ Task.mk (Task._id write_spec) (User.id alice) "Write spec" "done" 10 20
       :: tasks_of (User.id alice) (delete (Task._id write_spec) two_tasks).
Proof.
  apply (list_after_update two_tasks alice write_spec
           (Fields.mk None None (Some "done")) "64B7F0A1C2D3E4F5A6B7C901" 20).
  - vm_compute. reflexivity.
  - vm_compute. reflexivity.
  - reflexivity.
  - reflexivity.
Defined.

(** X8.  An update by the owner whose body is a flat object that names a
    user.  If the value is the ObjectId of another user, the task moves: it
    leaves the sender's list and joins, updated, the list of the user named.
    If the value is no ObjectId, the answer is 500 and nothing is written. *)
Theorem update_hands_task_over
    (db : gmap string Task.doc) (u : User.t) (t : Task.doc)
    (body : Fields.t) (id x : string) (now : N) :
  Mongoose.castObjectId id = Some (Task._id t) ->
  db !! Task._id t = Some t ->
  Task.user t = User.id u ->
  Fields.user body = Some x ->
  let c := PUT_task now (Request.mk (Some u) body id) in
  (forall x' : ObjectId,
      Mongoose.castObjectId x = Some x' ->
      x' <> User.id u ->
      let t' := Task.applyUpdate
                  (Fields.mk (Some x') (Fields.title body) (Fields.status body)) now t in
      replied c db = 200 /\
      Task.user t' = x' /\
      tasks_of (User.id u) db ≡ₚ t :: tasks_of (User.id u) (serve c db).2 /\
      tasks_of x' (serve c db).2 ≡ₚ t' :: tasks_of x' db) /\
  (Mongoose.castObjectId x = None ->
   replied c db = 500 /\ (serve c db).2 = db).
Proof.
  intros Hid Hk Hown Hbody c. split.
  - intros x' Hx Hne t'. unfold replied, c. simpl.
    rewrite (Express_updateTask_cast db _ now (Task._id t)
               (Fields.mk (Some x') (Fields.title body) (Fields.status body))).
    2: done.
    2:{ unfold Mongoose.castFields. simpl. by rewrite Hbody, Hx. }
    rewrite (updateTask_owner db _ now t u) by done. simpl.
    split; [done |]. split; [done |]. split.
    + rewrite (tasks_of_delete_own db (User.id u) (Task._id t) t) by done.
      apply Permutation_skip. unfold tasks_of. apply reflexive_eq.
      f_equal. f_equal. rewrite <- (insert_delete_eq db).
      rewrite map_filter_insert_not'; [done | |].
      * simpl. done.
      * intros t0 Hk'. by rewrite lookup_delete_eq in Hk'.
    + rewrite tasks_of_insert_own by done.
      apply Permutation_skip. apply reflexive_eq.
      apply tasks_of_delete_other. intros t0 Hk'. rewrite Hk in Hk'.
      injection Hk' as <-. rewrite Hown. done.
  - intros Hx. unfold replied, c. simpl.
    rewrite (Express_updateTask_bad_owner db _ now (Task._id t) t u); try done.
    unfold Mongoose.castFields. simpl. by rewrite Hbody, Hx.
Qed.

Lemma update_hands_task_over_witness :
  tasks_of (User.id bob)
    (serve (PUT_task 20 (Request.mk (Some alice)
                           (Fields.mk (Some "64B7F0A1C2D3E4F5A6B7C8D2") None None)
                           (Task._id write_spec))) two_tasks).2
  ≡ₚ handed_over :: tasks_of (User.id bob) two_tasks.
Proof.
  apply (proj1 (update_hands_task_over two_tasks alice write_spec
                  (Fields.mk (Some "64B7F0A1C2D3E4F5A6B7C8D2") None None)
                  (Task._id write_spec) "64B7F0A1C2D3E4F5A6B7C8D2" 20
                  ltac:(vm_compute; reflexivity) ltac:(vm_compute; reflexivity)
                  eq_refl eq_refl)
           (User.id bob)).
  - vm_compute. reflexivity.
  - discriminate.
Defined.

(** X9.  A delete by the owner removes the task, and nothing else, from the
    owner's list. *)
Theorem list_after_delete
    (db : gmap string Task.doc) (u : User.t) (t : Task.doc) (body : Fields.t) :
  db !! Task._id t = Some t ->
  Task.user t = User.id u ->
  let c := DELETE_task (Request.mk (Some u) body (Task._id t)) in
  answered c db = 200 /\
  tasks_of (User.id u) db ≡ₚ t :: tasks_of (User.id u) (run c db).2.
Proof.
  intros Hk Hown c. unfold answered, c. simpl.
  rewrite (deleteTask_owner db _ t u) by done. simpl.
  split; [done |]. by apply tasks_of_delete_own.
Qed.

Lemma list_after_delete_witness :
  tasks_of (User.id alice) two_tasks
  ≡ₚ write_spec
       :: tasks_of (User.id alice)
            (run (DELETE_task (Request.mk (Some alice) Fields.empty
                                 (Task._id write_spec))) two_tasks).2.
Proof.
  apply (list_after_delete two_tasks alice write_spec Fields.empty).
  - vm_compute. reflexivity.
  - reflexivity.
Defined.

(** ** The service and the stores behind it *)

(** A call through [axios] touches the collection only, and as the handler
    does. *)
Lemma api_world (handler : Async (gmap string Task.doc) Response) (w : World) :
  (api handler w).2 = mkWorld (mock_tasks w) (handler (collection w)).2.
Proof.
  unfold api. destruct (handler (collection w)) as [[r | e] db].
  - by destruct (Nat.leb 200 (code r) && Nat.ltb (code r) 300).
  - done.
Qed.

Lemma bind_ret_world {S A B} (c : Async S A) (f : A -> B) (s : S) :
  (bind c (fun a => ret (f a)) s).2 = (c s).2.
Proof. unfold bind, ret. by destruct (c s) as [[a | e] s']. Qed.

Lemma on_mock_world {A} (c : Async MockBackend.storage A) (w : World) :
  (on_mock c w).2 = mkWorld (c (mock_tasks w)).2 (collection w).
Proof. unfold on_mock. by destruct (c (mock_tasks w)). Qed.

(** The options of the select are the statuses of the schema. *)
Lemma option_value_in_enum (o : StatusOption) :
  Task.in_enum (option_value o) = true.
Proof. by destruct o. Qed.

Lemma run_create_tidy (db : gmap string Task.doc) (oid : ObjectId) (now : N)
    (who : option User.t) (title : string) :
  is_blank title = false -> tidy_collection db ->
  tidy_collection
    (Express.createTask oid now
       (Request.mk who (Fields.mk None (Some title) None) "") db).2.
Proof.
  intros Hblank Htidy.
  destruct (Express_createTask_cases db
              (Request.mk who (Fields.mk None (Some title) None) "") now oid)
    as [-> | (uid & ttl & Httl & _ & _ & ->)]; [done |].
  simpl in *. injection Httl as <-. intros k t Hk.
  destruct (decide (oid = k)) as [<- | Hne].
  - rewrite lookup_insert_eq in Hk. injection Hk as <-. by split.
  - rewrite lookup_insert_ne in Hk by done. by apply (Htidy k).
Qed.

Lemma run_update_tidy (db : gmap string Task.doc) (now : N)
    (who : option User.t) (id : string) (o : StatusOption) :
  tidy_collection db ->
  tidy_collection
    (Express.updateTask now
       (Request.mk who (Fields.mk None None (Some (option_value o))) id) db).2.
Proof.
  intros Htidy.
  destruct (Express_updateTask_cases db
              (Request.mk who (Fields.mk None None (Some (option_value o))) id) now)
    as [(r & -> & _) | (k0 & upd & t & u & _ & Hupd & Hid & _ & _ & ->)]; [done |].
  simpl in *. injection Hupd as <-. intros k t' Hk.
  destruct (decide (k0 = k)) as [<- | Hne].
  - rewrite lookup_insert_eq in Hk. injection Hk as <-. simpl.
    split; [apply option_value_in_enum | by apply (Htidy k0 t)].
  - rewrite lookup_insert_ne in Hk by done. by apply (Htidy k).
Qed.

Lemma run_delete_tidy (db : gmap string Task.doc) (req : Request.t) :
  tidy_collection db -> tidy_collection (Express.deleteTask req db).2.
Proof.
  intros Htidy.
  destruct (Express_deleteTask_cases db req)
    as [(r & -> & _) | (k0 & t0 & u & _ & _ & _ & _ & ->)]; [done |].
  intros k t Hk. simpl in Hk.
  apply lookup_delete_Some in Hk as [_ Hk]. by apply (Htidy k).
Qed.

Lemma seed_tidy : tidy_array MockBackend.seed.
Proof. repeat constructor. Qed.

Lemma mock_update_tidy (ls : MockBackend.storage) (id : string) (o : StatusOption) :
  tidy_array (MockBackend.read ls) ->
  tidy_array (MockBackend.read
    (MockBackend.updateTask id (Fields.mk None None (Some (option_value o))) ls).2).
Proof.
  intros Htidy. unfold MockBackend.updateTask.
  destruct (list_find _ (MockBackend.read ls)) as [[i t] |] eqn:Hfind; simpl; [| done].
  apply Forall_insert; [done |].
  apply list_find_Some in Hfind as (Hi & _ & _).
  apply list_elem_of_lookup_2 in Hi.
  pose proof (proj1 (Forall_forall _ _) Htidy t Hi) as [_ Htitle].
  split; [apply option_value_in_enum | done].
Qed.

(** Each action on the Dashboard keeps both stores tidy. *)
Lemma perform_tidy (env : Env) (a : Action) (w : World) :
  tidy_collection (collection w) /\ tidy_array (MockBackend.read (mock_tasks w)) ->
  tidy_collection (collection (perform env a w)) /\
  tidy_array (MockBackend.read (mock_tasks (perform env a w))).
Proof.
  intros [Hdb Hls]. destruct a as [| title | id o | id]; simpl.
  - unfold taskService.getAll. destruct (DEMO_MODE env).
    + rewrite bind_ret_world, on_mock_world. simpl. split; [done |].
      unfold MockBackend.fetchTasks.
      destruct (Nat.eqb (length (MockBackend.read (mock_tasks w))) 0); simpl;
        [apply seed_tidy | done].
    + rewrite bind_ret_world, api_world. simpl. by rewrite Express_getTasks_collection.
  - destruct (is_blank title) eqn:Hblank; [done |].
    unfold taskService.create. destruct (DEMO_MODE env).
    + rewrite bind_ret_world, on_mock_world. simpl. split; [done |].
      apply Forall_app. split; [done |]. by repeat constructor.
    + rewrite bind_ret_world, api_world. simpl. split; [| done].
      by apply run_create_tidy.
  - unfold taskService.update. destruct (DEMO_MODE env).
    + rewrite bind_ret_world, on_mock_world. simpl. split; [done |].
      by apply mock_update_tidy.
    + rewrite bind_ret_world, api_world. simpl. split; [| done].
      by apply run_update_tidy.
  - unfold taskService.delete. destruct (DEMO_MODE env).
    + rewrite bind_ret_world, on_mock_world. simpl. split; [done |].
      apply Forall_forall. intros t Ht. apply list_elem_of_filter in Ht as [_ Ht].
      by apply (proj1 (Forall_forall _ _) Hls).
    + rewrite bind_ret_world, api_world. simpl. split; [| done].
      by apply run_delete_tidy.
Qed.

(** X10.  Through the Dashboard the two invariants that the server does not
    enforce on updates hold all the same: whatever the user does there, in
    demo mode or against the server and signed in as anybody or nobody, every
    task stored on either side has a status of the enumeration and a title
    that is not blank.  The form refuses a blank title before it calls the
    service, and the select offers the three statuses only. *)
Theorem dashboard_traffic_keeps_stores_tidy (w : World) :
  visited w ->
  (forall k t, collection w !! k = Some t ->
     Task.in_enum (Task.status t) = true /\ is_blank (Task.title t) = false) /\
  (forall t, t ∈ MockBackend.read (mock_tasks w) ->
     Task.in_enum (MockBackend.status t) = true /\
     is_blank (MockBackend.title t) = false).
Proof.
  intros Hvisited.
  assert (Hboth : tidy_collection (collection w) /\
                  tidy_array (MockBackend.read (mock_tasks w))).
  { induction Hvisited as [| env a w _ IH].
    - split; [| constructor]. intros k t Hk. simpl in Hk.
      by rewrite lookup_empty in Hk.
    - by apply perform_tidy. }
  destruct Hboth as [Hdb Hls]. split; [exact Hdb |].
  intros t Ht. by apply (proj1 (Forall_forall _ _) Hls).
Qed.

Lemma dashboard_traffic_keeps_stores_tidy_witness :
  Task.in_enum "done" = true /\ is_blank "Buy milk" = false.
Proof.
  apply (proj1 (dashboard_traffic_keeps_stores_tidy
                  (perform alice_env
                     (SelectStatus "64b7f0a1c2d3e4f5a6b7c904" option_done)
                     (perform alice_env (AddTask "Buy milk") (mkWorld None ∅)))
                  (visited_step _ _ _ (visited_step _ _ _ visited_start)))
           "64b7f0a1c2d3e4f5a6b7c904"
           (Task.mk "64b7f0a1c2d3e4f5a6b7c904" (User.id alice) "Buy milk" "done"
              1700000000000 1700000000000)).
  vm_compute. reflexivity.
Defined.

(** ** The Dashboard *)

Lemma in_enum_spec (s : string) :
  Task.in_enum s = true <-> s = "todo" \/ s = "in-progress" \/ s = "done".
Proof.
  unfold Task.in_enum, Task.statusEnum. rewrite bool_decide_eq_true.
  rewrite !elem_of_cons, elem_of_nil. tauto.
Qed.

Lemma filter_all {A} (P : A -> Prop) `{!forall x, Decision (P x)} (l : list A) :
  (forall x, P x) -> filter P l = l.
Proof.
  intros HP. induction l as [| x l IH]; [done |].
  rewrite filter_cons_True by done. by rewrite IH.
Qed.

Lemma filter_keeps_all {A} (P : A -> Prop) `{!forall x, Decision (P x)} (l : list A) :
  (forall x, x ∈ l -> P x) -> filter P l = l.
Proof.
  intros HP. induction l as [| x l IH]; [done |].
  rewrite filter_cons_True by (apply HP; left).
  rewrite IH; [done |]. intros y Hy. apply HP. by right.
Qed.

(** The three counters against the length, on any list. *)
Lemma counters_add_up {Item} (item_status : Item -> string) (l : list Item) :
  let n s := length (filter (fun t => item_status t = s) l) in
  n "todo" + n "in-progress" + n "done" <= length l /\
  (n "todo" + n "in-progress" + n "done" = length l <->
   Forall (fun t => Task.in_enum (item_status t) = true) l).
Proof.
  induction l as [| x l [IHle IHeq]]; simpl.
  { split; [lia |]. split; [constructor | done]. }
  rewrite Forall_cons, in_enum_spec, !filter_cons.
  pose proof (length_filter (fun t => item_status t = "todo") l).
  pose proof (length_filter (fun t => item_status t = "in-progress") l).
  pose proof (length_filter (fun t => item_status t = "done") l).
  destruct (decide (item_status x = "todo")) as [E1 | E1];
    destruct (decide (item_status x = "in-progress")) as [E2 | E2];
    destruct (decide (item_status x = "done")) as [E3 | E3];
    try congruence; simpl in *; (split; [lia |]).
  - rewrite <- IHeq. split; [intros; split; [tauto | lia] | intros [_ ?]; lia].
  - rewrite <- IHeq. split; [intros; split; [tauto | lia] | intros [_ ?]; lia].
  - rewrite <- IHeq. split; [intros; split; [tauto | lia] | intros [_ ?]; lia].
  - split; [lia | tauto].
Qed.

(** X11.  On the Dashboard the three status counters never exceed the
    total, and they add up to it exactly when no task has a status outside
    the three; the tasks shown under a status filter are the tasks of that
    status, as many as its counter says, and the filter "all" shows every
    task. *)
Theorem counters_and_filter_agree {Item : Type}
    (item_status : Item -> string) (d : Dashboard Item) :
  let v := render item_status d in
  let total := (stats _ v).1.1.1 in
  let todo := (stats _ v).1.1.2 in
  let in_progress := (stats _ v).1.2 in
  let done_ := (stats _ v).2 in
  total = length (tasks d) /\
  todo + in_progress + done_ <= total /\
  (todo + in_progress + done_ = total <->
   Forall (fun t => Task.in_enum (item_status t) = true) (tasks d)) /\
  (filter_ d = "all" -> filteredTasks _ v = tasks d) /\
  (filter_ d <> "all" ->
   filteredTasks _ v = filter (fun t => item_status t = filter_ d) (tasks d) /\
   length (filteredTasks _ v) = count_status item_status (filter_ d) d).
Proof.
  simpl. unfold count_status.
  destruct (counters_add_up item_status (tasks d)) as [Hle Heq].
  split; [done |]. split; [exact Hle |]. split; [exact Heq |]. split.
  - intros Hall. apply filter_all. intros x. by left.
  - intros Hnot.
    assert (Hfilter :
      filter (fun t => filter_ d = "all" \/ item_status t = filter_ d) (tasks d)
      = filter (fun t => item_status t = filter_ d) (tasks d)).
    { apply list_filter_iff. intros x. tauto. }
    by rewrite Hfilter.
Qed.

Lemma counters_and_filter_agree_witness :
  filteredTasks _ (render MockBackend.status
                     (mkDashboard MockBackend.seed false "" "done" []))
    = filter (fun t => MockBackend.status t = "done") MockBackend.seed.
Proof.
  apply (counters_and_filter_agree MockBackend.status
           (mkDashboard MockBackend.seed false "" "done" [])).
  discriminate.
Defined.




(** ** The mock store *)

(** X13.  [MockBackend.fetchTasks] never returns the empty list: an empty
    store is seeded with the three demo tasks, which are stored and returned;
    a store that holds tasks is returned as it is and left alone.  Fetching
    again returns the same list. *)
Theorem fetchTasks_never_empty (ls : MockBackend.storage) :
  exists l,
    MockBackend.fetchTasks ls = (Returned l, (MockBackend.fetchTasks ls).2) /\
    l <> [] /\
    MockBackend.read (MockBackend.fetchTasks ls).2 = l /\
    MockBackend.fetchTasks (MockBackend.fetchTasks ls).2
      = (Returned l, (MockBackend.fetchTasks ls).2) /\
    (MockBackend.read ls = [] -> l = MockBackend.seed) /\
    (MockBackend.read ls <> [] ->
     l = MockBackend.read ls /\ (MockBackend.fetchTasks ls).2 = ls).
Proof.
  unfold MockBackend.fetchTasks.
  destruct (MockBackend.read ls) as [| x l] eqn:Hread; simpl.
  - exists MockBackend.seed. repeat split; done.
  - exists (x :: l). rewrite Hread. simpl. repeat split; done.
Qed.

(** X14.  After [MockBackend.deleteTask] no stored task has the identifier
    and every other task is still there; deleting the same identifier again
    changes nothing, and an update of it throws "Task not found" and leaves
    the store alone. *)
Theorem mock_delete_is_final
    (ls : MockBackend.storage) (id : string) (updates : Fields.t) :
  let ls' := (MockBackend.deleteTask id ls).2 in
  (forall t, t ∈ MockBackend.read ls' <->
             t ∈ MockBackend.read ls /\ MockBackend._id t <> id) /\
  (MockBackend.deleteTask id ls').2 = ls' /\
  MockBackend.updateTask id updates ls' = (Thrown (Error "Task not found"), ls').
Proof.
  simpl. split; [| split].
  - intros t. rewrite list_elem_of_filter. tauto.
  - unfold MockBackend.deleteTask. simpl. f_equal.
    rewrite list_filter_filter. apply list_filter_iff. intros x. tauto.
  - unfold MockBackend.updateTask. simpl.
    assert (Hnone : list_find (fun t => MockBackend._id t = id)
                      (filter (fun t => MockBackend._id t <> id) (MockBackend.read ls))
                    = None).
    { apply list_find_None, Forall_forall. intros x Hx.
      by apply list_elem_of_filter in Hx as [Hx _]. }
    by rewrite Hnone.
Qed.

(** X15.  [MockBackend.updateTask] never adds, removes or reorders tasks and
    never changes an identifier; it returns a task exactly when some stored
    task has the identifier, and otherwise throws "Task not found" and
    leaves the store alone. *)
Theorem mock_update_keeps_tasks_in_place
    (ls : MockBackend.storage) (id : string) (updates : Fields.t) :
  let run := MockBackend.updateTask id updates ls in
  MockBackend._id <$> MockBackend.read run.2 = MockBackend._id <$> MockBackend.read ls /\
  ((exists t, t ∈ MockBackend.read ls /\ MockBackend._id t = id) ->
   exists t, t ∈ MockBackend.read ls /\ MockBackend._id t = id /\
             run.1 = Returned (MockBackend.spread t updates)) /\
  ((forall t, t ∈ MockBackend.read ls -> MockBackend._id t <> id) ->
   run = (Thrown (Error "Task not found"), ls)).
Proof.
  simpl. unfold MockBackend.updateTask.
  destruct (list_find (fun t => MockBackend._id t = id) (MockBackend.read ls))
    as [[i t] |] eqn:Hfind; simpl.
  - apply list_find_Some in Hfind as (Hi & Hid & _). split; [| split].
    + rewrite list_fmap_insert. simpl. apply list_insert_id.
      by rewrite list_lookup_fmap, Hi.
    + intros _. exists t. split; [by eapply list_elem_of_lookup_2 | done].
    + intros Hnone. exfalso. apply (Hnone t); [by eapply list_elem_of_lookup_2 | done].
  - apply list_find_None in Hfind. split; [done |]. split; [| done].
    intros (t & Ht & Hid). exfalso.
    by apply (proj1 (Forall_forall _ _) Hfind t Ht).
Qed.

Lemma mock_update_keeps_tasks_in_place_witness :
  exists t, t ∈ MockBackend.read (Some MockBackend.seed) /\ MockBackend._id t = "2" /\
    (MockBackend.updateTask "2" (Fields.mk None None (Some "todo"))
       (Some MockBackend.seed)).1
      = Returned (MockBackend.spread t (Fields.mk None None (Some "todo"))).
Proof.
  apply (mock_update_keeps_tasks_in_place (Some MockBackend.seed) "2"
           (Fields.mk None None (Some "todo"))).
  exists (MockBackend.mk "2" "Build the Frontend" "done").
  split; [| reflexivity]. simpl. apply list_elem_of_further, list_elem_of_here.
Defined.

(** X16.  Two tasks created at the same clock value get the same identifier
    ([Date.now().toString()]), and the mock stores both.  A status change for
    that identifier then reaches the first of the two only, while a delete
    removes both. *)
Theorem same_clock_tasks_share_identifier
    (ls : MockBackend.storage) (now : N) (title1 title2 status : string) :
  (forall t, t ∈ MockBackend.read ls -> MockBackend._id t <> pretty now) ->
  let id := pretty now in
  let ls2 := (MockBackend.createTask now title2
                (MockBackend.createTask now title1 ls).2).2 in
  MockBackend.read ls2
    = MockBackend.read ls ++ [MockBackend.mk id title1 "todo";
                              MockBackend.mk id title2 "todo"] /\
  MockBackend.updateTask id (Fields.mk None None (Some status)) ls2
    = (Returned (MockBackend.mk id title1 status),
       Some (MockBackend.read ls ++ [MockBackend.mk id title1 status;
                                     MockBackend.mk id title2 "todo"])) /\
  (MockBackend.deleteTask id ls2).2 = Some (MockBackend.read ls).
Proof.
  intros Hfresh id ls2.
  assert (Hread : MockBackend.read ls2
            = MockBackend.read ls ++ [MockBackend.mk id title1 "todo";
                                      MockBackend.mk id title2 "todo"]).
  { unfold ls2. simpl. by rewrite <- app_assoc. }
  assert (Hnone : list_find (fun t => MockBackend._id t = id) (MockBackend.read ls)
                  = None).
  { apply list_find_None, Forall_forall. intros x Hx. by apply Hfresh. }
  split; [exact Hread |]. split.
  - unfold MockBackend.updateTask. rewrite Hread.
    assert (Hfind :
      list_find (fun t => MockBackend._id t = id)
        (MockBackend.read ls ++ [MockBackend.mk id title1 "todo";
                                 MockBackend.mk id title2 "todo"])
      = Some (length (MockBackend.read ls), MockBackend.mk id title1 "todo")).
    { apply list_find_app_Some. right. split; [lia |]. split; [done |].
      rewrite Nat.sub_diag. simpl. by rewrite decide_True. }
    cbv zeta. rewrite Hfind. unfold MockBackend.spread. simpl. f_equal. f_equal.
    rewrite insert_app_r_alt by lia. by rewrite Nat.sub_diag.
  - unfold MockBackend.deleteTask. cbv zeta. rewrite Hread. simpl. f_equal.
    rewrite filter_app, (filter_keeps_all _ (MockBackend.read ls)) by done.
    rewrite filter_cons_False by (intros H; by apply H).
    rewrite filter_cons_False by (intros H; by apply H).
    by rewrite app_nil_r.
Qed.

Lemma same_clock_tasks_share_identifier_witness :
  (MockBackend.deleteTask (pretty 20%N)
     (MockBackend.createTask 20 "b"
        (MockBackend.createTask 20 "a" (Some MockBackend.seed)).2).2).2
    = Some MockBackend.seed.
Proof.
  apply (same_clock_tasks_share_identifier (Some MockBackend.seed) 20 "a" "b" "done").
  intros t Ht Heq. simpl in Ht.
  repeat (apply elem_of_cons in Ht as [-> | Ht]);
    try (vm_compute in Heq; discriminate).
  by apply elem_of_nil in Ht.
Defined.

(** ** Signing in and out *)

(** X17.  After [login(data)] the user is signed in, requests carry
    [Bearer <token>], and a reload of the page restores the same user from
    [localStorage]; the last two only if the token is not the empty string.
    With an empty token the user is signed in until the reload, which finds
    nobody. *)
Theorem session_survives_reload {Account : Type}
    (d : MockAuth.data Account)
    (ls : AuthProvider.items Account) (st : AuthProvider.state Account) :
  let ls' := (AuthProvider.login d ls st).1 in
  let st' := (AuthProvider.login d ls st).2 in
  AuthProvider.user st' = Some (MockAuth.user d) /\
  AuthProvider.mount ls' AuthProvider.initial
    = AuthProvider.mkState
        (if AuthProvider.truthy (MockAuth.token d) then Some (MockAuth.user d) else None)
        false /\
  AuthProvider.authorization ls'
    = (if AuthProvider.truthy (MockAuth.token d)
       then Some ("Bearer " +:+ MockAuth.token d) else None).
Proof.
  simpl. split; [done |]. unfold AuthProvider.mount, AuthProvider.authorization.
  simpl. by destruct (AuthProvider.truthy (MockAuth.token d)).
Qed.

(** X18.  Once [AuthProvider] has loaded, the redirect settles in one step,
    and after it a visitor who is not signed in never gets the Dashboard (a
    visit to it shows the login form), while a signed-in user gets the
    Dashboard on each of the four pages of the application. *)
Theorem redirect_guards_dashboard {Account : Type}
    (page : string) (st : AuthProvider.state Account) :
  AuthProvider.loading st = false ->
  let p := App.redirect page st in
  App.redirect p st = p /\
  (AuthProvider.user st = None ->
   App.render p st <> App.DashboardPage /\ App.render p st <> App.Nothing /\
   (page = "dashboard" -> App.render p st = App.LoginForm)) /\
  (is_Some (AuthProvider.user st) ->
   (App.render p st = App.DashboardPage \/ App.render p st = App.HomePage) /\
   (page ∈ ["home"; "login"; "register"; "dashboard"] ->
    App.render p st = App.DashboardPage)).
Proof.
  intros Hload p. unfold p, App.redirect, App.render, App.renderPage.
  rewrite Hload.
  destruct (AuthProvider.user st) as [u |];
    repeat match goal with
      | |- context [String.eqb page ?s] =>
          destruct (String.eqb_spec page s) as [-> | ?]; simpl
      end;
    (split; [done |]); (split; [try done; by intros [=] |]).
  all: try (intros _; split; [by left | done]).
  all: try (by intros [? [=]]).
  intros _. split; [by right |].
  rewrite !elem_of_cons, elem_of_nil. intros [? | [? | [? | [? | []]]]]; done.
Qed.

Lemma redirect_guards_dashboard_witness :
  App.render
    (App.redirect "dashboard"
       (AuthProvider.mkState (None : option MockAuth.account) false))
    (AuthProvider.mkState (None : option MockAuth.account) false)
    = App.LoginForm.
Proof.
  pose proof (redirect_guards_dashboard "dashboard"
                (AuthProvider.mkState (None : option MockAuth.account) false)
                eq_refl) as (_ & Hout & _).
  by apply Hout.
Defined.

(** X19.  Logging out from the [Navbar] empties the two entries of
    [localStorage], so that requests carry no [Authorization] header and a
    reload finds nobody, and it brings up the login form. *)
Theorem logout_lands_on_login {Account : Type}
    (ls : AuthProvider.items Account) (st : AuthProvider.state Account) :
  AuthProvider.loading st = false ->
  let ls' := (App.handleLogout ls st).1.1 in
  let st' := (App.handleLogout ls st).1.2 in
  let page := (App.handleLogout ls st).2 in
  AuthProvider.user st' = None /\
  AuthProvider.authorization ls' = None /\
  AuthProvider.user (AuthProvider.mount ls' AuthProvider.initial) = None /\
  App.redirect page st' = "login" /\
  App.render (App.redirect page st') st' = App.LoginForm.
Proof.
  intros Hload. simpl. unfold App.redirect, App.render. simpl. by rewrite Hload.
Qed.

Lemma logout_lands_on_login_witness :
  App.render
    (App.redirect "login"
       (App.handleLogout
          (AuthProvider.mkItems (Some "mock-jwt-token-123")
             (Some (MockAuth.mkAccount 1 "Demo User" "a@b.c")))
          (AuthProvider.mkState (Some (MockAuth.mkAccount 1 "Demo User" "a@b.c")) false)).1.2)
    (App.handleLogout
       (AuthProvider.mkItems (Some "mock-jwt-token-123")
          (Some (MockAuth.mkAccount 1 "Demo User" "a@b.c")))
       (AuthProvider.mkState (Some (MockAuth.mkAccount 1 "Demo User" "a@b.c")) false)).1.2
    = App.LoginForm.
Proof.
  apply (logout_lands_on_login
           (AuthProvider.mkItems (Some "mock-jwt-token-123")
              (Some (MockAuth.mkAccount 1 "Demo User" "a@b.c")))
           (AuthProvider.mkState (Some (MockAuth.mkAccount 1 "Demo User" "a@b.c")) false)).
  reflexivity.
Defined.

Lemma truthy_spec (s : string) : AuthProvider.truthy s = true <-> s <> "".
Proof.
  unfold AuthProvider.truthy. rewrite negb_true_iff. apply String.eqb_neq.
Qed.

(** The message that [AuthForm] shows for an error is never empty. *)
Lemma error_text_nonempty (response_message : Exn -> option string) (err : Exn) :
  AuthForm.error_text response_message err <> "".
Proof.
  unfold AuthForm.error_text.
  assert (Hfallback :
    (if AuthProvider.truthy (message err) then message err
     else "Something went wrong") <> "").
  { destruct (AuthProvider.truthy (message err)) eqn:Hm; [| done].
    by apply truthy_spec. }
  destruct (response_message err) as [m |]; [| done].
  destruct (AuthProvider.truthy m) eqn:Hm; [by apply truthy_spec | done].
Qed.

(** X20.  A submit of [AuthForm] always ends with the loading flag down.  If
    the call of the service throws, the form shows a message that is not
    empty, and the page, the signed-in user and [localStorage] stay as they
    were.  If it returns, the error is cleared, the user of the answer is
    signed in and stored, and the page is the Dashboard. *)
Theorem submit_signs_in_or_explains {W Account : Type}
    (response_message : Exn -> option string)
    (service : AuthService.t W Account)
    (type : string) (c : AuthForm.client Account) (w : W) :
  let c' := (AuthForm.handleSubmit response_message service type c w).1 in
  let call :=
    if String.eqb type "login"
    then AuthService.login service
           (AuthForm.email (AuthForm.form c)) (AuthForm.password (AuthForm.form c))
    else AuthService.register service
           (AuthForm.name (AuthForm.form c)) (AuthForm.email (AuthForm.form c))
           (AuthForm.password (AuthForm.form c)) in
  AuthForm.loading c' = false /\
  AuthForm.form c' = AuthForm.form c /\
  (forall err, (call w).1 = Thrown err ->
     AuthForm.error c' = AuthForm.error_text response_message err /\
     AuthForm.error c' <> "" /\
     AuthForm.page c' = AuthForm.page c /\
     AuthForm.items c' = AuthForm.items c /\
     AuthForm.auth c' = AuthForm.auth c) /\
  (forall d, (call w).1 = Returned d ->
     AuthForm.error c' = "" /\
     AuthForm.page c' = "dashboard" /\
     AuthProvider.user (AuthForm.auth c') = Some (MockAuth.user d) /\
     AuthForm.items c'
       = AuthProvider.mkItems (Some (MockAuth.token d)) (Some (MockAuth.user d)) /\
     (AuthProvider.loading (AuthForm.auth c) = false ->
      App.render (App.redirect (AuthForm.page c') (AuthForm.auth c'))
                 (AuthForm.auth c') = App.DashboardPage)).
Proof.
  intros c' call. unfold c', AuthForm.handleSubmit. fold call.
  destruct (call w) as [[d | err] w']; simpl.
  - split; [done |]. split; [done |]. split; [done |].
    intros d' [= <-]. repeat split; try done.
    intros Hload. unfold App.redirect, App.render. simpl. by rewrite Hload.
  - split; [done |]. split; [done |]. split; [| done].
    intros err' [= <-]. repeat split; try done. apply error_text_nonempty.
Qed.

(** X21.  Signing in and registering in demo mode.  A login with a password
    of fewer than six UTF-16 code units ([password.length]) is refused with
    "Password must be at least 6 characters" and nobody is signed in; with
    six or more, whatever they are, the user is signed in as "Demo User"
    under the e-mail typed.  Registration never fails, whatever the
    password, the empty one included, and signs the user in under the name
    and e-mail typed. *)
Theorem demo_sign_in_rules (type : string) (c : AuthForm.client MockAuth.account) :
  let c' := (AuthForm.handleSubmit no_response demo_auth type c tt).1 in
  let f := AuthForm.form c in
  (type = "login" -> js_length (AuthForm.password f) < 6 ->
   AuthForm.error c' = "Password must be at least 6 characters" /\
   AuthForm.auth c' = AuthForm.auth c /\ AuthForm.page c' = AuthForm.page c) /\
  (type = "login" -> 6 <= js_length (AuthForm.password f) ->
   AuthProvider.user (AuthForm.auth c')
     = Some (MockAuth.mkAccount 1 "Demo User" (AuthForm.email f)) /\
   AuthForm.page c' = "dashboard" /\ AuthForm.error c' = "") /\
  (type <> "login" ->
   AuthProvider.user (AuthForm.auth c')
     = Some (MockAuth.mkAccount 1 (AuthForm.name f) (AuthForm.email f)) /\
   AuthForm.page c' = "dashboard" /\ AuthForm.error c' = "").
Proof.
  intros c' f. unfold c', AuthForm.handleSubmit, demo_auth. simpl.
  split; [| split].
  - intros -> Hshort. simpl. unfold MockAuth.login.
    apply Nat.ltb_lt in Hshort. fold f. rewrite Hshort. simpl. done.
  - intros -> Hlong. simpl. unfold MockAuth.login.
    apply Nat.ltb_ge in Hlong. fold f. rewrite Hlong. simpl. done.
  - intros Hreg. apply String.eqb_neq in Hreg. rewrite Hreg. simpl. done.
Qed.

Lemma demo_sign_in_rules_witness :
  let c := AuthForm.mkClient (AuthForm.mkFormData "Ann" "ann@example.org" "ééééé")
             "" false "login" (AuthProvider.mkItems None None)
             (AuthProvider.mkState (None : option MockAuth.account) false) in
  js_length "ééééé" = 5 /\
  AuthForm.error (AuthForm.handleSubmit no_response demo_auth "login" c tt).1
    = "Password must be at least 6 characters" /\
  AuthProvider.user
    (AuthForm.auth (AuthForm.handleSubmit no_response demo_auth "register" c tt).1)
    = Some (MockAuth.mkAccount 1 "Ann" "ann@example.org").
Proof.
  intros c. split; [vm_compute; reflexivity |]. split.
  - apply (proj1 (demo_sign_in_rules "login" c)); [reflexivity |].
    apply Nat.ltb_lt. vm_compute. reflexivity.
  - apply (proj2 (proj2 (demo_sign_in_rules "register" c))). discriminate.
Defined.

Lemma submit_signs_in_or_explains_witness :
  let c := AuthForm.mkClient (AuthForm.mkFormData "Ann" "ann@example.org" "12345")
             "" false "login" (AuthProvider.mkItems None None)
             (AuthProvider.mkState (None : option MockAuth.account) false) in
  AuthForm.error (AuthForm.handleSubmit no_response demo_auth "login" c tt).1 <> "" /\
  AuthForm.page (AuthForm.handleSubmit no_response demo_auth "register" c tt).1
    = "dashboard".
Proof.
  intros c. split.
  - pose proof (submit_signs_in_or_explains no_response demo_auth "login" c tt)
      as (_ & _ & Hfail & _).
    by apply (Hfail (Error "Password must be at least 6 characters") eq_refl).
  - pose proof (submit_signs_in_or_explains no_response demo_auth "register" c tt)
      as (_ & _ & _ & Hok).
    by apply (Hok (MockAuth.mkData "mock-jwt-token-123"
                     (MockAuth.mkAccount 1 "Ann" "ann@example.org")) eq_refl).
Defined.

